(** * Nature's Way video automation: cursor store, title enrichment,
      script synthesis, video producer and publisher

    A shallow embedding of [helpers.py] and [socialpilot_poster.py].
    Python values that cross a JSON boundary are modelled by the type
    [json]; Python [str] is a list of Unicode code points; code that can
    raise runs in a state-and-exception monad over an explicit world
    (the state file, the replies of the remote services, the clock, the
    log).  [time.time()] is counted in whole seconds. *)

From Stdlib Require Import ZArith NArith List Bool String Ascii Lia.
From Stdlib Require Import DecimalString.
Import ListNotations.
Open Scope Z_scope.
Set Warnings "-register-all".

(** ** Python strings *)

Module PyStr.

(** A Python [str] is a sequence of code points. *)
Definition str := list N.

(** Literals are written as Rocq strings (Basic Latin only). *)
Definition u (s : string) : str :=
  map N_of_ascii (list_ascii_of_string s).

Definition en_dash : N := 8211%N.   (* U+2013 *)

Fixpoint str_eqb (a b : str) : bool :=
  match a, b with
  | [], [] => true
  | x :: a', y :: b' => N.eqb x y && str_eqb a' b'
  | _, _ => false
  end.

(** [str(n)] for an integer. *)
Definition str_of_Z (z : Z) : str := u (NilZero.string_of_int (Z.to_int z)).

(** [s.replace(old, new)] for one-character [old] and [new]. *)
Definition replace_char (old new : N) (s : str) : str :=
  map (fun c => if N.eqb c old then new else c) s.

(** [s.split(sep)] for a one-character separator: one more piece than
    there are separators, empty pieces kept. *)
Fixpoint split_char (sep : N) (s : str) : list str :=
  match s with
  | [] => [[]]
  | c :: s' =>
      if N.eqb c sep then [] :: split_char sep s'
      else match split_char sep s' with
           | [] => [[c]]
           | p :: ps => (c :: p) :: ps
           end
  end.

(** The code points [str.strip()] removes ([str.isspace]). *)
Definition is_space (c : N) : bool :=
  ((9 <=? c) && (c <=? 13) || (28 <=? c) && (c <=? 32)
   || (c =? 133) || (c =? 160) || (c =? 5760)
   || (8192 <=? c) && (c <=? 8202) || (c =? 8232) || (c =? 8233)
   || (c =? 8239) || (c =? 8287) || (c =? 12288))%N.

Fixpoint lstrip (s : str) : str :=
  match s with
  | c :: s' => if is_space c then lstrip s' else s
  | [] => []
  end.

Definition rstrip (s : str) : str := rev (lstrip (rev s)).

(** [s.strip()] *)
Definition strip (s : str) : str := rstrip (lstrip s).

(** [s.lower()] on one code point.  Basic Latin capitals are mapped; so
    are the two code points outside Basic Latin whose lower-case form
    contains a Basic Latin letter (U+0130 and the Kelvin sign U+212A).
    Every other code point is left as it is: its lower-case form lies
    outside Basic Latin, so tests against Basic Latin words are the same. *)
Definition lower_cp (c : N) : str :=
  (if (65 <=? c) && (c <=? 90) then [c + 32]
   else if c =? 304 then [105; 775]
   else if c =? 8490 then [107]
   else [c])%N.

Definition lower (s : str) : str := flat_map lower_cp s.

Fixpoint starts_with (p s : str) : bool :=
  match p, s with
  | [], _ => true
  | x :: p', y :: s' => N.eqb x y && starts_with p' s'
  | _ :: _, [] => false
  end.

(** [needle in hay] for strings. *)
Fixpoint contains (needle hay : str) : bool :=
  starts_with needle hay ||
  match hay with
  | [] => false
  | _ :: hay' => contains needle hay'
  end.

(** [sep.join(parts)] *)
Fixpoint join (sep : str) (parts : list str) : str :=
  match parts with
  | [] => []
  | [p] => p
  | p :: ps => p ++ sep ++ join sep ps
  end.

(** [len(s)] *)
Definition len (s : str) : Z := Z.of_nat (List.length s).

End PyStr.
Export PyStr.

(** ** JSON values as Python sees them

    [json.load] and [response.json()] produce [None], [bool], [int], [str],
    [list] and [dict].  JSON numbers are modelled by integers: numbers with
    a fraction or an exponent are floating point and outside this
    embedding.  A [dict] is its list of items; lookup finds the first item
    with the key. *)

Inductive json :=
| JNull
| JBool (b : bool)
| JNum (z : Z)
| JStr (s : str)
| JList (l : list json)
| JDict (d : list (str * json)).

Fixpoint lookup (k : str) (d : list (str * json)) : option json :=
  match d with
  | [] => None
  | (k', v) :: d' => if str_eqb k k' then Some v else lookup k d'
  end.

(** Python truthiness, as used by [if x] and [not x]. *)
Definition truthy (v : json) : bool :=
  match v with
  | JNull => false
  | JBool b => b
  | JNum z => negb (z =? 0)
  | JStr s => match s with [] => false | _ => true end
  | JList l => match l with [] => false | _ => true end
  | JDict d => match d with [] => false | _ => true end
  end.

(** [v == 'literal'] for a string literal. *)
Definition is_str (v : json) (s : str) : bool :=
  match v with
  | JStr t => str_eqb t s
  | _ => false
  end.

(** ** Exceptions and the state-and-exception monad *)

Inductive exn :=
| AttributeError
| TypeError
| KeyError
| OSError
| JSONDecodeError
| RequestException
| IndexError.

(** [Diverge] is not a Python outcome: it marks a loop of the embedding
    that ran out of its iteration budget.  No handler catches it. *)
Inductive result (A : Type) :=
| Ok (a : A)
| Raise (e : exn)
| Diverge.
Arguments Ok {A} a.
Arguments Raise {A} e.
Arguments Diverge {A}.

Definition M (W A : Type) : Type := W -> result A * W.

Definition ret {W A} (a : A) : M W A := fun w => (Ok a, w).
Definition raise {W A} (e : exn) : M W A := fun w => (Raise e, w).
Definition bind {W A B} (m : M W A) (k : A -> M W B) : M W B :=
  fun w => match m w with
           | (Ok a, w') => k a w'
           | (Raise e, w') => (Raise e, w')
           | (Diverge, w') => (Diverge, w')
           end.
(** [try: m except Exception as e: h e] *)
Definition try_except {W A} (m : M W A) (h : exn -> M W A) : M W A :=
  fun w => match m w with
           | (Ok a, w') => (Ok a, w')
           | (Raise e, w') => h e w'
           | (Diverge, w') => (Diverge, w')
           end.
Definition lift {W A} (r : result A) : M W A := fun w => (r, w).

Declare Scope py_scope.
Delimit Scope py_scope with py.
Notation "x <- m ;; k" := (bind m (fun x => k))
  (at level 61, m at next level, right associativity) : py_scope.
Notation "m ;;; k" := (bind m (fun _ => k))
  (at level 61, right associativity) : py_scope.
Open Scope py_scope.

(** [d.get(k, default)]: only a [dict] has the method. *)
Definition py_get (v : json) (k : str) (default : json) : result json :=
  match v with
  | JDict d => Ok (match lookup k d with Some x => x | None => default end)
  | _ => Raise AttributeError
  end.

(** [l[i]] on a Python list held as a Rocq list. *)
Definition py_index {A} (l : list A) (i : nat) : result A :=
  match nth_error l i with
  | Some x => Ok x
  | None => Raise IndexError
  end.

(** [v + 1]: defined on [int] and on [bool] (a subclass of [int]). *)
Definition py_add1 (v : json) : result json :=
  match v with
  | JNum z => Ok (JNum (z + 1))
  | JBool b => Ok (JNum ((if b then 1 else 0) + 1))
  | _ => Raise TypeError
  end.

(** ** Cursor store: [StateManager] *)

Module StateManager.

(** What the state file looks like to [os.path.exists], [open] and
    [json.load]. *)
Inductive file_state :=
| Absent                 (* os.path.exists(state_file) is False *)
| Unreadable             (* the path exists, open(.., 'r') raises *)
| Corrupt                (* the text is rejected by json.load *)
| Parsed (j : json).     (* json.load returns j *)

(** How [with open(state_file, 'w') as f: json.dump(..)] can go: [open]
    raises and the file is untouched, or [open] has truncated the file and
    the dump (or the close) raises, or the record is written. *)
Inductive write_fault := NoFault | OpenFault | DumpFault.

Inductive event :=
| ErrReading (e : exn)              (* "Error reading state file: .." *)
| ErrSaving (e : exn)               (* "Error saving state: .." *)
| InfoAdvanced (from to : json)     (* "Advanced from row .. to row .." *)
| InfoReset.                        (* "Reset to row 2" *)

Record world := mkWorld {
  file : file_state;
  fault : write_fault;
  now_iso : str;          (* what datetime.now().isoformat() returns *)
  log : list event
}.

Definition logger (ev : event) : M world unit :=
  fun w => (Ok tt, mkWorld (file w) (fault w) (now_iso w) (log w ++ [ev])).

Definition path_exists : M world bool :=
  fun w => (Ok (match file w with Absent => false | _ => true end), w).

(** [with open(state_file, 'r') as f: json.load(f)] *)
Definition open_json_load : M world json :=
  fun w => match file w with
           | Absent => (Raise OSError, w)
           | Unreadable => (Raise OSError, w)
           | Corrupt => (Raise JSONDecodeError, w)
           | Parsed j => (Ok j, w)
           end.

Definition datetime_now_isoformat : M world str :=
  fun w => (Ok (now_iso w), w).

(** [with open(state_file, 'w') as f: json.dump(state_data, f, indent=2)] *)
Definition open_json_dump (state_data : json) : M world unit :=
  fun w => match fault w with
           | OpenFault => (Raise OSError, w)
           | DumpFault =>
               (Raise OSError, mkWorld Corrupt (fault w) (now_iso w) (log w))
           | NoFault =>
               (Ok tt, mkWorld (Parsed state_data) (fault w) (now_iso w) (log w))
           end.

Definition get_current_row : M world json :=
  try_except
    (ex <- path_exists ;;
     if ex then
       data <- open_json_load ;;
       lift (py_get data (u "current_row") (JNum 2))
     else ret (JNum 2))
    (fun e => logger (ErrReading e) ;;; ret (JNum 2)).

(** The dict [{'current_row': row, 'last_updated': ts}]. *)
Definition state_record (row : json) (ts : str) : json :=
  JDict [(u "current_row", row); (u "last_updated", JStr ts)].

Definition _save_state (row : json) : M world unit :=
  try_except
    (ts <- datetime_now_isoformat ;;
     let state_data := state_record row ts in
     open_json_dump state_data)
    (fun e => logger (ErrSaving e)).

Definition increment_row : M world unit :=
  current_row <- get_current_row ;;
  new_row <- lift (py_add1 current_row) ;;
  _save_state new_row ;;;
  logger (InfoAdvanced current_row new_row).

Definition reset_to_start : M world unit :=
  _save_state (JNum 2) ;;;
  logger InfoReset.

(** The value [get_current_row] hands back for a given file: the
    [current_row] item of a parsed object, the base value 2 otherwise. *)
Definition cursor_of (f : file_state) : json :=
  match f with
  | Parsed (JDict d) =>
      match lookup (u "current_row") d with Some v => v | None => JNum 2 end
  | _ => JNum 2
  end.

End StateManager.

(** ** Title enrichment: [GoogleSheetsReader] *)

Module GoogleSheetsReader.

Definition benefits_keywords : list str :=
  map u ["enhance"; "improve"; "boost"; "promote"; "support"; "strengthen";
         "healthy"; "organic"; "natural"; "nutrient"; "growth"; "root";
         "soil"; "plant"; "garden"; "lawn"]%string.

Definition default_benefits_empty_title : str :=
  u "provides excellent nutrition for your plants".

Definition default_benefits_no_match : str :=
  u "provides excellent nutrition and support for healthy plant growth".

(** [any(keyword.lower() in sentence.lower() for keyword in ..)] *)
Definition has_keyword (sentence : str) : bool :=
  existsb (fun keyword => contains (lower keyword) (lower sentence))
          benefits_keywords.

(** One turn of the [for sentence in sentences] loop on the accumulator
    [benefit_parts]. *)
Definition benefits_step (benefit_parts : list str) (sentence : str)
  : list str :=
  let sentence := strip sentence in
  if has_keyword sentence then
    if (len sentence >? 20) && (len sentence <? 150)
    then benefit_parts ++ [sentence]
    else benefit_parts
  else benefit_parts.

Definition _extract_benefits_from_title (title : str) : str :=
  match title with
  | [] => default_benefits_empty_title
  | _ =>
      let sentences :=
        split_char 124 (* | *)
          (replace_char 45 (* - *) 32
             (replace_char en_dash 32
                (replace_char 47 (* / *) 32 title))) in
      let benefit_parts := fold_left benefits_step sentences [] in
      match benefit_parts with
      | _ :: _ => join (u ". ") (firstn 2 benefit_parts)
      | [] => default_benefits_no_match
      end
  end.

(** *** The rule as the specification words it

    The title is cut at each of the four separators; a fragment is kept
    when its length is from 20 to 150 and it contains a keyword. *)

Definition is_separator (c : N) : bool :=
  ((c =? 47) || (c =? en_dash) || (c =? 45) || (c =? 124))%N.

Fixpoint split_on (sep : N -> bool) (s : str) : list str :=
  match s with
  | [] => [[]]
  | c :: s' =>
      if sep c then [] :: split_on sep s'
      else match split_on sep s' with
           | [] => [[c]]
           | p :: ps => (c :: p) :: ps
           end
  end.

Definition spec_keeps (fragment : str) : bool :=
  (20 <=? len fragment) && (len fragment <=? 150) && has_keyword fragment.

Definition spec_benefits (default : str) (title : str) : str :=
  match filter spec_keeps (map strip (split_on is_separator title)) with
  | [] => default
  | kept => join (u ". ") (firstn 2 kept)
  end.

(** *** The rule the code follows, stated without the loop *)

Definition blank_separators (title : str) : str :=
  map (fun c => if ((c =? 47) || (c =? en_dash) || (c =? 45))%N
                then 32%N else c) title.

Definition code_keeps (fragment : str) : bool :=
  has_keyword fragment && (20 <? len fragment) && (len fragment <? 150).

(** *** Product name and key ingredient *)

(** [s.split(sep)[0]] *)
Definition split_first (sep : N) (s : str) : str :=
  hd [] (split_char sep s).

Definition default_product_name : str := u "Nature's Way Soil Product".

Definition _extract_product_name_from_title (title : str) : str :=
  match title with
  | [] => default_product_name
  | _ =>
      let name := strip (split_first 45 (split_first en_dash title)) in
      if contains [47%N] name then strip (split_first 47 name) else name
  end.

Definition ingredients : list str :=
  map u ["kelp"; "seaweed"; "humic acid"; "fulvic acid"; "biochar";
         "compost"; "worm castings"; "bone meal"; "aloe vera";
         "vitamin b-1"; "mycorrhizae"; "enzymes"; "microbes"; "bacteria";
         "charcoal"; "coco coir"; "perlite"]%string.

Definition default_ingredient_empty_title : str := u "organic nutrients".

Definition default_ingredient_no_match : str :=
  u "organic nutrients and beneficial compounds".

(** One turn of the [for ingredient in ingredients] loop on the
    accumulator [found_ingredients]. *)
Definition ingredient_step (title_lower : str) (found_ingredients : list str)
           (ingredient : str) : list str :=
  if contains ingredient title_lower
  then found_ingredients ++ [ingredient]
  else found_ingredients.

Definition _extract_key_ingredient_from_title (title : str) : str :=
  match title with
  | [] => default_ingredient_empty_title
  | _ =>
      let title_lower := lower title in
      let found_ingredients :=
        fold_left (ingredient_step title_lower) ingredients [] in
      match found_ingredients with
      | _ :: _ => join (u ", ") (firstn 2 found_ingredients)
      | [] => default_ingredient_no_match
      end
  end.

(** The first separator-free stretch of the title. *)
Fixpoint before_separator (title : str) : str :=
  match title with
  | [] => []
  | c :: rest =>
      if ((c =? 47) || (c =? en_dash) || (c =? 45))%N then []
      else c :: before_separator rest
  end.

End GoogleSheetsReader.

(** ** Script synthesis: [ScriptGenerator] *)

Module ScriptGenerator.

(** A product record as [get_product_data] builds it: field name to
    text. *)
Definition record := list (str * str).

(** [product_data.get(key, default)] *)
Fixpoint get (key : str) (product_data : record) (default : str) : str :=
  match product_data with
  | [] => default
  | (k, v) :: rest => if str_eqb key k then v else get key rest default
  end.

Record scene := mkScene {
  scene_number : Z;
  duration : Z;
  text : str;
  visual_description : str;
  background_music : str
}.

Record script_data := mkScript {
  hook : str;
  education : str;
  cta : str;
  full_script : str;
  scenes : list scene;
  total_duration : Z;
  product_name : str
}.

(** What [generate_script] returns: the script, or [{}] from its
    [except] branch. *)
Inductive script_doc :=
| Script (s : script_data)
| EmptyDict.

Inductive event :=
| InfoGenerated (product_name : str)
| ErrGenerating (e : exn).

Definition logger (ev : event) : M (list event) unit :=
  fun w => (Ok tt, w ++ [ev]).

Definition hooks : list str :=
  map u ["Why are your plants struggling to thrive?";
         "What if I told you there's a secret to healthier soil?";
         "Are your plants getting the nutrition they really need?";
         "Want to know the difference between surviving and thriving plants?";
         "Ever wonder why some gardens flourish while others struggle?"]%string.

Definition education_templates (product_name key_ingredient benefits : str)
  : list str :=
  [ product_name ++ u " contains " ++ key_ingredient ++
    u " that naturally improves soil structure and nutrient availability. "
    ++ benefits ++
    u ". This means stronger root systems, better water retention, and healthier plants that can resist pests and diseases naturally.";
    u "The science is simple: " ++ product_name ++ u " with " ++
    key_ingredient ++ u " creates the perfect soil environment. " ++
    benefits ++
    u ". Your plants get consistent nutrition, improved drainage, and the biological activity they need to thrive.";
    product_name ++ u " works by introducing " ++ key_ingredient ++
    u " that feeds beneficial soil microbes. " ++ benefits ++
    u ". This creates a living soil ecosystem that supports plant health from the ground up." ].

Definition cta_text : str :=
  u "For more organic gardening tips and premium soil solutions, visit natureswaysoil.com".

Definition generate_script (product_data : record)
  : M (list event) script_doc :=
  try_except
    (let product_name :=
       get (u "product_name") product_data (u "our organic product") in
     let benefits :=
       get (u "benefits") product_data
           (u "amazing benefits for your plants") in
     let key_ingredient :=
       get (u "key_ingredient") product_data (u "natural ingredients") in
     let cta := cta_text in
     hook <- lift (py_index hooks 0) ;;
     education <-
       lift (py_index
               (education_templates product_name key_ingredient benefits) 0) ;;
     let scenes :=
       [ mkScene 1 7 hook
           (u "Close-up of struggling plant with yellowing leaves, then transition to healthy green plants")
           (u "upbeat_gardening");
         mkScene 2 18 education
           (u "Hands working with rich, dark soil, plants growing in healthy soil, root system close-up")
           (u "educational_calm");
         mkScene 3 5 cta
           (u "Beautiful thriving garden, Nature's Way logo, website text overlay")
           (u "upbeat_conclusion") ] in
     let full_script := hook ++ u " " ++ education ++ u " " ++ cta in
     let script_data :=
       mkScript hook education cta full_script scenes 30 product_name in
     logger (InfoGenerated product_name) ;;;
     ret (Script script_data))
    (fun e => logger (ErrGenerating e) ;;; ret EmptyDict).

End ScriptGenerator.

(** ** HTTP exchanges

    A call of [requests.get] or [requests.post] either raises or returns a
    response; either way it takes some whole number of seconds.
    [response.json()] raises when the body is not JSON. *)

Record response := mkResponse {
  status_code : Z;
  response_text : str;
  body : option json
}.

Inductive reply :=
| NoReply (latency : N)
| Reply (latency : N) (r : response).

Definition response_json (r : response) : result json :=
  match body r with
  | Some j => Ok j
  | None => Raise JSONDecodeError
  end.

(** ** Video producer: [PictoryVideoCreator] *)

Module PictoryVideoCreator.
Import ScriptGenerator.

(** The constructor arguments. *)
Record creator := mkCreator {
  api_key : str;
  client_id : str;
  client_secret : str;
  test_mode : bool
}.

Record pictory_scene := mkPictoryScene {
  ps_text : str;
  voiceOver : bool;
  ps_duration : Z;
  backgroundMusic : str;
  visualStyle : str
}.

Inductive request :=
| PostToken (client_id client_secret : str)
| PostCreate (token : json) (product_name : str) (scenes : list pictory_scene)
| GetJob (token : json) (video_id : json).

Inductive event :=
| InfoTestMode
| WarnEncryptedKeys
| InfoGotToken
| ErrTokenStatus (code : Z)
| ErrToken (e : exn)
| InfoStarted (video_id : json)
| ErrNoVideoId
| ErrCreateStatus (code : Z)
| ErrCreating (e : exn)
| InfoCompleted (video_url : json)
| ErrJobFailed
| InfoStatus (status : json)
| WarnStatusCheck (code : Z)
| ErrChecking (e : exn)
| WarnTimedOut.

(** [clock] is [time.time()] in whole seconds; [net] holds the replies
    the service will give to the next requests (none left: the request
    raises); [access_token] is [self.access_token], [None] at first. *)
Record world := mkWorld {
  clock : Z;
  net : list reply;
  sent : list request;
  access_token : json;
  log : list event
}.

Definition logger (ev : event) : M world unit :=
  fun w => (Ok tt,
            mkWorld (clock w) (net w) (sent w) (access_token w) (log w ++ [ev])).

Definition time_time : M world Z := fun w => (Ok (clock w), w).

Definition time_sleep (seconds : Z) : M world unit :=
  fun w => (Ok tt,
            mkWorld (clock w + seconds) (net w) (sent w) (access_token w) (log w)).

Definition get_access_token_field : M world json :=
  fun w => (Ok (access_token w), w).

Definition set_access_token (v : json) : M world unit :=
  fun w => (Ok tt, mkWorld (clock w) (net w) (sent w) v (log w)).

Definition http (rq : request) : M world response :=
  fun w =>
    match net w with
    | [] =>
        (Raise RequestException,
         mkWorld (clock w) [] (sent w ++ [rq]) (access_token w) (log w))
    | NoReply l :: rest =>
        (Raise RequestException,
         mkWorld (clock w + Z.of_N l) rest (sent w ++ [rq])
                 (access_token w) (log w))
    | Reply l r :: rest =>
        (Ok r,
         mkWorld (clock w + Z.of_N l) rest (sent w ++ [rq])
                 (access_token w) (log w))
    end.

Definition _get_access_token (c : creator) : M world bool :=
  try_except
    (response <- http (PostToken (client_id c) (client_secret c)) ;;
     if status_code response =? 200 then
       token_data <- lift (response_json response) ;;
       tok <- lift (py_get token_data (u "access_token") JNull) ;;
       set_access_token tok ;;;
       logger InfoGotToken ;;;
       ret true
     else
       logger (ErrTokenStatus (status_code response)) ;;;
       ret false)
    (fun e => logger (ErrToken e) ;;; ret false).

(** One turn of the [while] loop of [_wait_for_video_completion]:
    [Some v] when the turn executes [return v], [None] when it sleeps and
    the loop goes on. *)
Definition poll_once (video_id : json) : M world (option json) :=
  try_except
    (tok <- get_access_token_field ;;
     response <- http (GetJob tok video_id) ;;
     if status_code response =? 200 then
       job_data <- lift (response_json response) ;;
       data <- lift (py_get job_data (u "data") (JDict [])) ;;
       status <- lift (py_get data (u "status") JNull) ;;
       if is_str status (u "completed") then
         data' <- lift (py_get job_data (u "data") (JDict [])) ;;
         video_url <- lift (py_get data' (u "videoURL") JNull) ;;
         logger (InfoCompleted video_url) ;;;
         ret (Some video_url)
       else if is_str status (u "failed") then
         logger ErrJobFailed ;;;
         ret (Some JNull)
       else
         logger (InfoStatus status) ;;;
         time_sleep 30 ;;;
         ret None
     else
       logger (WarnStatusCheck (status_code response)) ;;;
       time_sleep 30 ;;;
       ret None)
    (fun e => logger (ErrChecking e) ;;; time_sleep 30 ;;; ret None).

(** [while time.time() - start_time < max_wait_time: ..], then the
    time-out return. *)
Fixpoint wait_loop (budget : nat) (video_id : json)
         (start_time max_wait_time : Z) : M world json :=
  match budget with
  | O => fun w => (Diverge, w)
  | S budget' =>
      now <- time_time ;;
      if now - start_time <? max_wait_time then
        r <- poll_once video_id ;;
        match r with
        | Some v => ret v
        | None => wait_loop budget' video_id start_time max_wait_time
        end
      else
        logger WarnTimedOut ;;;
        ret JNull
  end.

(** Turns of the loop that a wait of [max_wait_time] can need: every turn
    that does not return sleeps 30. *)
Definition poll_budget (max_wait_time : Z) : nat :=
  Z.to_nat ((max_wait_time + 29) / 30) + 1.

Definition _wait_for_video_completion (video_id : json)
           (max_wait_time : Z) : M world json :=
  start_time <- time_time ;;
  wait_loop (poll_budget max_wait_time) video_id start_time max_wait_time.

Record video_result := mkVideo {
  video_id : json;
  video_url : json;
  status : str;
  note : option str
}.

Definition mock_video (prefix : str) (t : Z) (note : option str)
  : video_result :=
  let mock_video_id := prefix ++ str_of_Z t in
  let mock_video_url :=
    u "https://example.com/videos/" ++ mock_video_id ++ u ".mp4" in
  mkVideo (JStr mock_video_id) (JStr mock_video_url) (u "completed") note.

Definition to_pictory_scene (s : scene) : pictory_scene :=
  mkPictoryScene (text s) true (duration s) (background_music s)
                 (u "nature_gardening").

(** [script_data.get('scenes', [])] *)
Definition scenes_of (script : script_doc) : list scene :=
  match script with
  | Script s => scenes s
  | EmptyDict => []
  end.

(** [self.access_token or self._get_access_token()], the negation of the
    test [not self.access_token and not self._get_access_token()]. *)
Definition have_token (c : creator) : M world bool :=
  tok <- get_access_token_field ;;
  if truthy tok then ret true else _get_access_token c.

Definition create_video (c : creator) (script : script_doc)
           (product_data : record) : M world (option video_result) :=
  try_except
    (if test_mode c then
       logger InfoTestMode ;;;
       t <- time_time ;;
       ret (Some (mock_video (u "test_video_") t None))
     else if starts_with (u "AQICA") (api_key c) then
       logger WarnEncryptedKeys ;;;
       t <- time_time ;;
       ret (Some (mock_video (u "encrypted_key_test_") t
                    (Some (u "Created with encrypted keys - test mode"))))
     else
       authorised <- have_token c ;;
       if negb authorised then ret None
       else
         let name := get (u "product_name") product_data (u "Product") in
         let pictory_scenes := map to_pictory_scene (scenes_of script) in
         tok <- get_access_token_field ;;
         response <- http (PostCreate tok name pictory_scenes) ;;
         if (status_code response =? 200) || (status_code response =? 201)
         then
           result <- lift (response_json response) ;;
           job <- lift (py_get result (u "job") (JDict [])) ;;
           video_id <- lift (py_get job (u "id") JNull) ;;
           if truthy video_id then
             logger (InfoStarted video_id) ;;;
             video_url <- _wait_for_video_completion video_id 600 ;;
             ret (Some (mkVideo video_id video_url
                          (if truthy video_url then u "completed"
                           else u "processing")
                          None))
           else
             logger ErrNoVideoId ;;;
             ret None
         else
           logger (ErrCreateStatus (status_code response)) ;;;
           ret None)
    (fun e => logger (ErrCreating e) ;;; ret None).

(** The job id the service hands out in answer to the next request, if
    that answer accepts the job: status 200 or 201 and a JSON body with a
    non-empty [job.id]. *)
Definition accepted_job (w : world) : option json :=
  match net w with
  | Reply _ r :: _ =>
      if (status_code r =? 200) || (status_code r =? 201) then
        match body r with
        | Some (JDict d) =>
            match lookup (u "job") d with
            | Some (JDict job) =>
                match lookup (u "id") job with
                | Some id => if truthy id then Some id else None
                | None => None
                end
            | _ => None
            end
        | _ => None
        end
      else None
  | _ => None
  end.

(** The last line logged in [w] is [ev]. *)
Definition ends_with (w : world) (ev : event) : Prop :=
  exists l, log w = l ++ [ev].

(** Polls sent while waiting: none, or the last of them left less than
    [remaining] seconds after the start, the polls being 30 seconds
    apart. *)
Definition polls_within (polls : list request) (remaining : Z) : Prop :=
  polls = [] \/ 30 * (Z.of_nat (List.length polls) - 1) < remaining.

(** The three ways the polling can end with value [v] in world [w']: the
    job was seen completed, it was seen failed, or the deadline passed. *)
Definition wait_ended (v : json) (w' : world) (deadline : Z) : Prop :=
  ends_with w' (InfoCompleted v) \/
  (v = JNull /\ ends_with w' ErrJobFailed) \/
  (v = JNull /\ ends_with w' WarnTimedOut /\ deadline <= clock w').

End PictoryVideoCreator.

(** ** More of Python on JSON values *)

(** [len(v)] *)
Definition py_len (v : json) : result Z :=
  match v with
  | JStr s => Ok (len s)
  | JList l => Ok (Z.of_nat (List.length l))
  | JDict d => Ok (Z.of_nat (List.length d))
  | _ => Raise TypeError
  end.

(** [v[:3]]: lists and strings can be sliced; a [dict] cannot (the
    slice is not a usable key), nor can numbers, [bool] or [None]. *)
Definition py_slice3 (v : json) : result json :=
  match v with
  | JList l => Ok (JList (firstn 3 l))
  | JStr s => Ok (JStr (firstn 3 s))
  | _ => Raise TypeError
  end.

(** The items a [for] loop or a comprehension draws from [v]. *)
Definition py_iter (v : json) : result (list json) :=
  match v with
  | JList l => Ok l
  | JStr s => Ok (map (fun c => JStr [c]) s)
  | JDict d => Ok (map (fun kv => JStr (fst kv)) d)
  | _ => Raise TypeError
  end.

(** [v[key]] for a string key. *)
Definition py_getitem (v : json) (key : str) : result json :=
  match v with
  | JDict d => match lookup key d with
               | Some x => Ok x
               | None => Raise KeyError
               end
  | _ => Raise TypeError
  end.

(** [key in v] for a string key. *)
Definition py_in (key : str) (v : json) : result bool :=
  match v with
  | JDict d => Ok (match lookup key d with Some _ => true | None => false end)
  | JList l => Ok (existsb (fun x => is_str x key) l)
  | JStr s => Ok (contains key s)
  | _ => Raise TypeError
  end.

(** [v.lower()]: only [str] has the method. *)
Definition py_lower (v : json) : result str :=
  match v with
  | JStr s => Ok (lower s)
  | _ => Raise AttributeError
  end.

(** [[f(x) for x in xs]], stopping at the first exception. *)
Fixpoint map_result {A B} (f : A -> result B) (xs : list A)
  : result (list B) :=
  match xs with
  | [] => Ok []
  | x :: xs' =>
      match f x with
      | Ok y => match map_result f xs' with
                | Ok ys => Ok (y :: ys)
                | Raise e => Raise e
                | Diverge => Diverge
                end
      | Raise e => Raise e
      | Diverge => Diverge
      end
  end.

(** An f-string with interpolated JSON values: the literal parts and the
    values, whose [str()] is not expanded. *)
Inductive piece :=
| Lit (s : str)
| Fmt (v : json).
Definition fstring := list piece.

(** [str(e)]: the embedding does not track the text of an exception; the
    name of its class stands for it. *)
Definition str_of_exn (e : exn) : str :=
  match e with
  | AttributeError => u "AttributeError"
  | TypeError => u "TypeError"
  | KeyError => u "KeyError"
  | OSError => u "OSError"
  | JSONDecodeError => u "JSONDecodeError"
  | RequestException => u "RequestException"
  | IndexError => u "IndexError"
  end.

(** [v[i]] for an integer index within [0, len). *)
Definition py_index_int (v : json) (i : nat) : result json :=
  match v with
  | JList l => match nth_error l i with
               | Some x => Ok x
               | None => Raise IndexError
               end
  | JStr s => match nth_error s i with
              | Some c => Ok (JStr [c])
              | None => Raise IndexError
              end
  | JDict _ => Raise KeyError
  | _ => Raise TypeError
  end.

(** A Python [dict] with text keys, built by assignment: [d[k] = v]
    replaces the value of an existing key in place and appends a new
    key. *)
Definition dict := list (str * json).

Fixpoint dict_set (k : str) (v : json) (d : dict) : dict :=
  match d with
  | [] => [(k, v)]
  | (k', v') :: d' =>
      if str_eqb k k' then (k, v) :: d' else (k', v') :: dict_set k v d'
  end.

(** ** Reading a row: [GoogleSheetsReader.get_product_data] *)

Module GoogleSheetsRows.
Import GoogleSheetsReader.

Inductive sheet_event :=
| ErrReadFailed              (* "Failed to read from Google Sheets" *)
| ErrNotEnoughData           (* "Not enough data in sheet" *)
| WarnRowMissing (row : Z) (rows : Z)
| WarnInvalidRow (row : Z)
| WarnNoData (row : Z)
| InfoRetrieved (row : Z) (product_name : json)
| ErrSheets (e : exn).       (* "Error reading from Google Sheets: .." *)

(** [tool_output] is what [_call_sheets_tool] returns: the JSON printed by
    the helper process, or [None]. *)
Record sheet_world := mkSheet {
  tool_output : json;
  sheet_log : list sheet_event
}.

Definition sheet_logger (ev : sheet_event) : M sheet_world unit :=
  fun w => (Ok tt, mkSheet (tool_output w) (sheet_log w ++ [ev])).

Definition _call_sheets_tool : M sheet_world json :=
  fun w => (Ok (tool_output w), w).

(** An extraction method called on whatever [product_data.get('title', '')]
    gave: a falsy value takes the [if not title] exit, a text is processed,
    and any other value has none of the [str] methods. *)
Definition on_title (extract : str -> str) (title : json) : result str :=
  match title with
  | JStr s => Ok (extract s)
  | _ => if truthy title then Raise AttributeError else Ok (extract [])
  end.

(** [header.lower().replace(' ', '_')] *)
Definition field_key (header : json) : result str :=
  match py_lower header with
  | Ok s => Ok (replace_char 32 95 s)
  | Raise e => Raise e
  | Diverge => Diverge
  end.

(** [for i, header in enumerate(headers): ..] from index [i]. *)
Fixpoint fill_fields (i : nat) (headers : list json) (data_row : json)
         (product_data : dict) : M sheet_world dict :=
  match headers with
  | [] => ret product_data
  | header :: rest =>
      n <- lift (py_len data_row) ;;
      if Z.of_nat i <? n then
        cell <- lift (py_index_int data_row i) ;;
        key <- lift (field_key header) ;;
        fill_fields (S i) rest data_row (dict_set key cell product_data)
      else
        key <- lift (field_key header) ;;
        fill_fields (S i) rest data_row (dict_set key (JStr []) product_data)
  end.

(** The part of [get_product_data] that follows the checks on [row]:
    building the record from the header row and the data row. *)
Definition read_row (values headers : json) (row : Z)
  : M sheet_world (option dict) :=
  data_row <- lift (py_index_int values (Z.to_nat (row - 1))) ;;
  if negb (truthy data_row) then
    sheet_logger (WarnNoData row) ;;;
    ret None
  else
    items <- lift (py_iter headers) ;;
    product_data <- fill_fields 0 items data_row [] ;;
    let title :=
      match lookup (u "title") product_data with
      | Some v => v
      | None => JStr []
      end in
    benefits <- lift (on_title _extract_benefits_from_title title) ;;
    key_ingredient <-
      lift (on_title _extract_key_ingredient_from_title title) ;;
    product_name <-
      lift (on_title _extract_product_name_from_title title) ;;
    let product_data :=
      dict_set (u "product_name") (JStr product_name) product_data in
    let product_data :=
      dict_set (u "benefits") (JStr benefits) product_data in
    let product_data :=
      dict_set (u "key_ingredient") (JStr key_ingredient) product_data in
    let product_data :=
      dict_set (u "description") title product_data in
    sheet_logger
      (InfoRetrieved row
         (match lookup (u "product_name") product_data with
          | Some v => v
          | None => JStr (u "Unknown")
          end)) ;;;
    ret (Some product_data).

Definition get_product_data (row : Z) : M sheet_world (option dict) :=
  try_except
    (result <- _call_sheets_tool ;;
     success <-
       (if negb (truthy result) then ret JNull
        else lift (py_get result (u "success") JNull)) ;;
     if negb (truthy success) then
       sheet_logger ErrReadFailed ;;;
       ret None
     else
       values <- lift (py_get result (u "values") (JList [])) ;;
       rows <- lift (py_len values) ;;
       if rows <? 2 then
         sheet_logger ErrNotEnoughData ;;;
         ret None
       else
         headers <- lift (py_index_int values 0) ;;
         if row >? rows then
           sheet_logger (WarnRowMissing row rows) ;;;
           ret None
         else
           row <- (if row <? 2
                   then sheet_logger (WarnInvalidRow row) ;;; ret 2
                   else ret row) ;;
           read_row values headers row)
    (fun e => sheet_logger (ErrSheets e) ;;; ret None).

(** A normalised field name: no blank and no Basic Latin capital. *)
Definition normalised (key : str) : Prop :=
  forall c, In c key -> c <> 32%N /\ ~ (65 <= c <= 90)%N.

End GoogleSheetsRows.

(** ** Publisher: [SocialPilotPoster] *)

Module SocialPilotPoster.
Import ScriptGenerator.

Inductive auth_method := Bearer | API_Key | X_API_Key.

Inductive request :=
| GetAccounts (headers : auth_method)
| PostMedia (video_path : str)
| PostPosts (headers : auth_method) (accounts : list json) (text : str)
            (media : option (list json)).

(** [headers] is [self.headers], unset until [get_accounts] succeeds;
    [readable] lists the paths [open(.., 'rb')] can open. *)
Record world := mkWorld {
  net : list reply;
  sent : list request;
  headers : option auth_method;
  readable : list str;
  now_iso : str
}.

Definition http (rq : request) : M world response :=
  fun w =>
    match net w with
    | [] =>
        (Raise RequestException,
         mkWorld [] (sent w ++ [rq]) (headers w) (readable w) (now_iso w))
    | NoReply _ :: rest =>
        (Raise RequestException,
         mkWorld rest (sent w ++ [rq]) (headers w) (readable w) (now_iso w))
    | Reply _ r :: rest =>
        (Ok r,
         mkWorld rest (sent w ++ [rq]) (headers w) (readable w) (now_iso w))
    end.

Definition set_headers (h : auth_method) : M world unit :=
  fun w => (Ok tt, mkWorld (net w) (sent w) (Some h) (readable w) (now_iso w)).

(** Reading [self.headers]. *)
Definition get_headers : M world auth_method :=
  fun w => match headers w with
           | Some h => (Ok h, w)
           | None => (Raise AttributeError, w)
           end.

Definition open_rb (video_path : str) : M world unit :=
  fun w => if existsb (str_eqb video_path) (readable w)
           then (Ok tt, w) else (Raise OSError, w).

Definition datetime_now_isoformat : M world str :=
  fun w => (Ok (now_iso w), w).

(** One turn of the [for method_name, headers in auth_methods] loop:
    [Some v] when the turn executes [return v]. *)
Definition try_method (method : auth_method) : M world (option json) :=
  try_except
    (response <- http (GetAccounts method) ;;
     if status_code response =? 200 then
       set_headers method ;;;
       j <- lift (response_json response) ;;
       data <- lift (py_get j (u "data") (JList [])) ;;
       ret (Some data)
     else ret None)
    (fun e => ret None).

Fixpoint try_methods (auth_methods : list auth_method) : M world json :=
  match auth_methods with
  | [] => ret (JList [])
  | method :: rest =>
      r <- try_method method ;;
      match r with
      | Some v => ret v
      | None => try_methods rest
      end
  end.

Definition get_accounts : M world json :=
  try_methods [Bearer; API_Key; X_API_Key].

Definition upload_media (video_path : str) : M world json :=
  try_except
    (open_rb video_path ;;;
     response <- http (PostMedia video_path) ;;
     if status_code response =? 200 then
       media_data <- lift (response_json response) ;;
       data <- lift (py_get media_data (u "data") (JDict [])) ;;
       lift (py_get data (u "id") JNull)
     else ret JNull)
    (fun e => ret JNull).

Definition error_dict (message : str) : json :=
  JDict [(u "error", JStr message)].

Definition create_post (accounts : list json) (text : str) (media_id : json)
  : M world json :=
  try_except
    (let media := if truthy media_id then Some [media_id] else None in
     h <- get_headers ;;
     response <- http (PostPosts h accounts text media) ;;
     if status_code response =? 200 then
       lift (response_json response)
     else
       ret (error_dict (u "HTTP " ++ str_of_Z (status_code response) ++
                        u ": " ++ response_text response)))
    (fun e => ret (error_dict (str_of_exn e))).

Record post_entry := mkEntry {
  platform : str;
  account : json;
  entry_status : str;
  post_id : fstring;
  url : fstring;
  scheduled_time : str
}.

Inductive outcome :=
| OError (message : json)
| OSuccess (message : str) (posts : list post_entry) (media_id : json)
           (accounts_used : Z).

(** The ["status"] item of the returned dict. *)
Definition outcome_status (o : outcome) : str :=
  match o with
  | OError _ => u "error"
  | OSuccess _ _ _ _ => u "success"
  end.

Definition posts_of (o : outcome) : list post_entry :=
  match o with
  | OError _ => []
  | OSuccess _ posts _ _ => posts
  end.

(** [script_data.get('hook', ..)] and [script_data.get('cta', ..)] *)
Definition hook_of (script : script_doc) : str :=
  match script with
  | Script s => hook s
  | EmptyDict => u "Transform your garden naturally!"
  end.

Definition cta_of (script : script_doc) : str :=
  match script with
  | Script s => cta s
  | EmptyDict => u "Visit natureswaysoil.com for more!"
  end.

Definition newline : str := [10%N].

Definition post_entry_for (media_id : json) (i : Z) (account : json)
  : M world post_entry :=
  type <- lift (py_get account (u "type") (JStr (u "unknown"))) ;;
  platform <- lift (py_lower type) ;;
  account_name <-
    lift (py_get account (u "name") (JStr (u "Account_" ++ str_of_Z (i + 1)))) ;;
  now <- datetime_now_isoformat ;;
  ret (mkEntry platform account_name (u "posted")
         [Lit (u "sp_"); Fmt media_id; Lit (u "_"); Fmt (JNum i)]
         [Lit (u "https://socialpilot.co/posts/"); Fmt media_id]
         now).

(** [for i, account in enumerate(..): results.append(..)] from index [i]. *)
Fixpoint format_results (media_id : json) (i : Z) (accounts : list json)
  : M world (list post_entry) :=
  match accounts with
  | [] => ret []
  | account :: rest =>
      entry <- post_entry_for media_id i account ;;
      entries <- format_results media_id (i + 1) rest ;;
      ret (entry :: entries)
  end.

(** The caption: hook, product name, call to action and hashtags. *)
Definition post_text_of (script : script_doc) (product_data : record) : str :=
  let product_name :=
    get (u "product_name") product_data (u "Nature's Way Product") in
  let hook := hook_of script in
  let cta := cta_of script in
  hook ++ newline ++ newline ++ product_name ++ newline ++ newline ++
  cta ++ newline ++ newline ++
  u "#NaturesWay #OrganicGardening #PlantCare #GreenThumb #HealthyPlants".

(** [[acc['id'] for acc in accounts[:3]]] *)
Definition account_ids_of (accounts : json) : result (list json) :=
  match py_slice3 accounts with
  | Ok first3 =>
      match py_iter first3 with
      | Ok items => map_result (fun acc => py_getitem acc (u "id")) items
      | Raise e => Raise e
      | Diverge => Diverge
      end
  | Raise e => Raise e
  | Diverge => Diverge
  end.

Definition post_video (video_path : str) (script : script_doc)
           (product_data : record) : M world outcome :=
  accounts <- get_accounts ;;
  if negb (truthy accounts) then
    ret (OError
           (JStr (u "No connected social media accounts found in SocialPilot")))
  else
    _ <- lift (py_len accounts) ;;
    media_id <- upload_media video_path ;;
    if negb (truthy media_id) then
      ret (OError (JStr (u "Failed to upload video to SocialPilot")))
    else
      let post_text := post_text_of script product_data in
      account_ids <- lift (account_ids_of accounts) ;;
      post_result <- create_post account_ids post_text media_id ;;
      failed <- lift (py_in (u "error") post_result) ;;
      if failed : bool then
        message <- lift (py_getitem post_result (u "error")) ;;
        ret (OError message)
      else
        post_data <- lift (py_get post_result (u "data") (JDict [])) ;;
        first3 <- lift (py_slice3 accounts) ;;
        items <- lift (py_iter first3) ;;
        results <- format_results media_id 0 items ;;
        let n := Z.of_nat (List.length results) in
        ret (OSuccess
               (u "Video posted to " ++ str_of_Z n ++
                u " social media accounts")
               results media_id n).

(** [_get_api_key]: the secrets file is seen as [open] and [json.load]
    see it; [None] is returned from the [except] branch. *)
Definition load_secrets : M StateManager.file_state json :=
  fun f => match f with
           | StateManager.Absent => (Raise OSError, f)
           | StateManager.Unreadable => (Raise OSError, f)
           | StateManager.Corrupt => (Raise JSONDecodeError, f)
           | StateManager.Parsed j => (Ok j, f)
           end.

Definition _get_api_key : M StateManager.file_state json :=
  try_except
    (secrets <- load_secrets ;;
     section <- lift (py_getitem secrets (u "SOCIALPILOT")) ;;
     inner <- lift (py_getitem section (u "secrets")) ;;
     lift (py_getitem inner (u "API_KEY")))
    (fun e => ret JNull).



End SocialPilotPoster.

(** ** Notifier: [ZapierWebhookSender] *)

Module ZapierWebhookSender.

Inductive event :=
| WarnNotConfigured
| InfoSent
| ErrStatus (code : Z)
| ErrSending (e : exn).

(** [sent] lists the payloads posted to the webhook, with the URL used. *)
Record world := mkWorld {
  net : list reply;
  sent : list (str * json);
  log : list event
}.

Definition logger (ev : event) : M world unit :=
  fun w => (Ok tt, mkWorld (net w) (sent w) (log w ++ [ev])).

Definition http_post (url : str) (data : json) : M world response :=
  fun w =>
    match net w with
    | [] => (Raise RequestException, mkWorld [] (sent w ++ [(url, data)]) (log w))
    | NoReply _ :: rest =>
        (Raise RequestException, mkWorld rest (sent w ++ [(url, data)]) (log w))
    | Reply _ r :: rest =>
        (Ok r, mkWorld rest (sent w ++ [(url, data)]) (log w))
    end.

Definition send_to_zapier (webhook_url : str) (data : json) : M world bool :=
  try_except
    (if negb (truthy (JStr webhook_url))
        || contains (u "YOUR_WEBHOOK_ID") webhook_url
     then
       logger WarnNotConfigured ;;;
       ret false
     else
       response <- http_post webhook_url data ;;
       if status_code response =? 200 then
         logger InfoSent ;;;
         ret true
       else
         logger (ErrStatus (status_code response)) ;;;
         ret false)
    (fun e => logger (ErrSending e) ;;; ret false).

(** The webhook is configured: the URL is not empty and is not the
    placeholder. *)
Definition configured (webhook_url : str) : bool :=
  negb (match webhook_url with [] => true | _ => false end)
  && negb (contains (u "YOUR_WEBHOOK_ID") webhook_url).

End ZapierWebhookSender.

(** ** Repeated runs of the cursor store *)

Module Runs.
Import StateManager.

(** The world after [k] calls of [increment_row], one after the other. *)
Fixpoint advance_times (k : nat) (w : world) : world :=
  match k with
  | O => w
  | S k' => advance_times k' (snd (increment_row w))
  end.

End Runs.

(** * Statements read off the specification

    Each is a property of one world, so that it can be tested on a
    concrete one. *)

Module Stated.
Import StateManager.

(** "advance writes the persisted cursor plus 1 with a fresh timestamp" *)
Definition advance_writes_successor (w : world) : Prop :=
  exists v v',
    fst (get_current_row w) = Ok v /\
    py_add1 v = Ok v' /\
    fst (increment_row w) = Ok tt /\
    file (snd (increment_row w)) = Parsed (state_record v' (now_iso w)).

(** "a read performed after reset returns 2" *)
Definition read_after_reset_is_base (w : world) : Prop :=
  fst (get_current_row (snd (reset_to_start w))) = Ok (JNum 2).

(** "no write operation raises; after a failed write a read returns the
    old value" *)
Definition write_failure_is_harmless (w : world) : Prop :=
  fst (increment_row w) = Ok tt /\
  fst (reset_to_start w) = Ok tt /\
  (fault w <> NoFault ->
   fst (get_current_row (snd (increment_row w))) = fst (get_current_row w) /\
   fst (get_current_row (snd (reset_to_start w))) = fst (get_current_row w)).

End Stated.

Module StatedVideo.
Import ScriptGenerator PictoryVideoCreator.

(** "degrades to simulation: returns a synthesized completed result" *)
Definition degrades_to_simulation (c : creator) (script : script_doc)
           (pd : record) (w : world) : Prop :=
  exists v, fst (create_video c script pd w) = Ok (Some v) /\
            status v = u "completed".



End StatedVideo.

(** Worlds used as test inputs. *)
Module Samples.
Import StateManager.

Definition stamp : str := u "2024-05-01T09:30:00".

Definition store (row : json) (f : write_fault) : world :=
  mkWorld (Parsed (state_record row (u "2024-04-30T09:30:00"))) f stamp [].

Definition text_cursor : world := store (JStr (u "7")) NoFault.
Definition text_cursor_read_only : world := store (JStr (u "7")) OpenFault.
Definition read_only_at_5 : world := store (JNum 5) OpenFault.
Definition disk_full_at_5 : world := store (JNum 5) DumpFault.
Definition fresh : world := mkWorld Absent NoFault stamp [].

End Samples.

Module VideoSamples.
Import ScriptGenerator PictoryVideoCreator.

Definition live : creator :=
  mkCreator (u "pk_live_123") (u "client") (u "secret") false.

Definition encrypted : creator :=
  mkCreator (u "AQICAHh3") (u "client") (u "secret") false.

Definition json_reply (code : Z) (j : json) : reply :=
  Reply 1 (mkResponse code [] (Some j)).

Definition job_accepted : reply :=
  json_reply 200 (JDict [(u "job", JDict [(u "id", JStr (u "job-1"))])]).

Definition job_status (st : str) (fields : list (str * json)) : reply :=
  json_reply 200 (JDict [(u "data", JDict ((u "status", JStr st) :: fields))]).

(** No token yet, and the token request is refused. *)
Definition token_refused : world :=
  mkWorld 1000 [json_reply 401 (JDict [])] [] JNull [].

(** A token is held, and the job submission is refused. *)
Definition submission_refused : world :=
  mkWorld 1000 [json_reply 500 (JDict [])] [] (JStr (u "tok")) [].

(** The job is accepted and the first poll finds it failed. *)
Definition job_fails : world :=
  mkWorld 1000 [job_accepted; job_status (u "failed") []] []
          (JStr (u "tok")) [].


(** The job is accepted and the service then stops answering. *)
Definition job_never_answers : world :=
  mkWorld 1000 [job_accepted] [] (JStr (u "tok")) [].

Definition no_script : script_doc := EmptyDict.
Definition no_fields : record := [].

End VideoSamples.

Module PosterSamples.
Import ScriptGenerator SocialPilotPoster.

Definition video_path : str := u "/tmp/video.mp4".

Definition json_reply (code : Z) (j : json) : reply :=
  Reply 1 (mkResponse code [] (Some j)).

Definition account_item (id : string) : json :=
  JDict [(u "id", JStr (u id)); (u "type", JStr (u "Facebook"))].

Definition four_accounts : reply :=
  json_reply 200
    (JDict [(u "data",
             JList [account_item "a1"; account_item "a2";
                    account_item "a3"; account_item "a4"])]).

Definition media_stored : reply :=
  json_reply 200 (JDict [(u "data", JDict [(u "id", JStr (u "m1"))])]).

Definition post_created : reply :=
  json_reply 200 (JDict [(u "data", JDict [(u "id", JStr (u "p9"))])]).

Definition service (replies : list reply) : world :=
  mkWorld replies [] None [video_path] (u "2024-05-01T09:30:00").


(** Four accounts are found, the upload and the post go through. *)
Definition all_goes_well : world :=
  service [four_accounts; media_stored; post_created].

End PosterSamples.

Module SheetSamples.
Import GoogleSheetsReader GoogleSheetsRows.

Definition cell (s : string) : json := JStr (u s).

Definition kelp_title : str :=
  u "Kelp & Humic Acid Soil Booster " ++ [en_dash] ++
  u " Improves Root Growth".

(** A header row, one product row, and an empty row. *)
Definition sheet : sheet_world :=
  mkSheet
    (JDict [(u "success", JBool true);
            (u "values",
             JList [JList [cell "Parent ASIN"; cell "Title"; cell "Short Name"];
                    JList [cell "B01"; JStr kelp_title];
                    JList []])])
    [].

(** The record read from row 2 of [sheet]. *)
Definition row_2 : dict :=
  match fst (get_product_data 2 sheet) with
  | Ok (Some product_data) => product_data
  | _ => []
  end.

End SheetSamples.

Module PosterSamplesMore.
Import ScriptGenerator SocialPilotPoster.

(** Two accounts are found; the second has no id.  The upload goes
    through. *)
Definition account_without_id : world :=
  PosterSamples.service
    [PosterSamples.json_reply 200
       (JDict [(u "data",
                JList [PosterSamples.account_item "a1";
                       JDict [(u "type", JStr (u "Instagram"))]])]);
     PosterSamples.media_stored;
     PosterSamples.post_created].

End PosterSamplesMore.

(** * Facts about strings *)



(** * Cursor store *)

Section CursorStore.
Import StateManager.

Lemma get_current_row_spec (w : world) :
  exists w', get_current_row w = (Ok (cursor_of (file w)), w') /\
             file w' = file w /\ fault w' = fault w /\ now_iso w' = now_iso w.
Proof.
  unfold get_current_row, try_except, bind, path_exists, open_json_load,
    lift, ret, logger.
  destruct w as [f ft ts lg]; simpl.
  destruct f as [| | |j]; simpl; eauto.
  destruct j; simpl; eauto.
Qed.

Lemma save_state_spec (row : json) (w : world) :
  fst (_save_state row w) = Ok tt /\
  fault (snd (_save_state row w)) = fault w /\
  now_iso (snd (_save_state row w)) = now_iso w /\
  file (snd (_save_state row w)) =
    match fault w with
    | NoFault => Parsed (state_record row (now_iso w))
    | OpenFault => file w
    | DumpFault => Corrupt
    end /\
  (fault w <> NoFault ->
   log (snd (_save_state row w)) = log w ++ [ErrSaving OSError]).
Proof.
  unfold _save_state, try_except, bind, datetime_now_isoformat,
    open_json_dump, logger.
  destruct w as [f ft ts lg]; simpl.
  destruct ft; simpl; repeat split; congruence.
Qed.

Lemma reset_to_start_spec (w : world) :
  fst (reset_to_start w) = Ok tt /\
  file (snd (reset_to_start w)) = file (snd (_save_state (JNum 2) w)) /\
  log (snd (reset_to_start w)) =
    log (snd (_save_state (JNum 2) w)) ++ [InfoReset].
Proof.
  unfold reset_to_start, bind.
  destruct (save_state_spec (JNum 2) w) as (H & _).
  destruct (_save_state (JNum 2) w) as [r w1]; simpl in *; subst r.
  unfold logger; simpl. auto.
Qed.

Lemma increment_row_spec (w : world) :
  match py_add1 (cursor_of (file w)) with
  | Ok v' =>
      fst (increment_row w) = Ok tt /\
      file (snd (increment_row w)) =
        match fault w with
        | NoFault => Parsed (state_record v' (now_iso w))
        | OpenFault => file w
        | DumpFault => Corrupt
        end
  | Raise e =>
      fst (increment_row w) = Raise e /\
      file (snd (increment_row w)) = file w
  | Diverge => False
  end.
Proof.
  unfold increment_row, bind.
  destruct (get_current_row_spec w) as (w1 & E & Hf & Hft & Hts).
  rewrite E. unfold lift.
  destruct (py_add1 (cursor_of (file w))) as [v'|e|] eqn:A.
  - destruct (save_state_spec v' w1) as (H1 & _ & _ & H4 & _).
    destruct (_save_state v' w1) as [r w2]; simpl in *; subst r.
    unfold logger; simpl. split; [reflexivity|].
    rewrite H4, Hft, Hts, Hf. reflexivity.
  - simpl. auto.
  - destruct (cursor_of (file w)); discriminate.
Qed.

(** C2. For every content of the state file, [get_current_row] returns
    normally: the [current_row] item when the file exists and parses to an
    object that has one, and the base value 2 when the file is absent,
    unreadable, corrupt, or has no such item.  The file is left as it
    was. *)
Theorem get_current_row_never_raises (w : world) :
  fst (get_current_row w) =
    Ok (match file w with
        | Parsed (JDict d) =>
            match lookup (u "current_row") d with
            | Some v => v
            | None => JNum 2
            end
        | Parsed _ | Absent | Unreadable | Corrupt => JNum 2
        end) /\
  file (snd (get_current_row w)) = file w.
Proof.
  destruct (get_current_row_spec w) as (w' & E & Hf & _).
  rewrite E; simpl. split; [|exact Hf].
  unfold cursor_of. destruct (file w) as [| | |[]]; reflexivity.
Qed.

(** C1 as stated fails: with a text in [current_row] the call raises
    [TypeError] and writes nothing, and with a state file that cannot be
    opened for writing nothing is written either. *)
Lemma advance_writes_successor_fails :
  ~ Stated.advance_writes_successor Samples.text_cursor /\
  ~ Stated.advance_writes_successor Samples.read_only_at_5.
Proof.
  split; intros (v & v' & H0 & H1 & H2 & H3).
  - vm_compute in H2. discriminate.
  - vm_compute in H3. discriminate.
Qed.

(** C1, amended.  Provided the state file can be written: when the
    persisted cursor read by [get_current_row] is an integer [n],
    [increment_row] returns normally and the file then holds exactly
    [n + 1] with the timestamp read from the clock; and when no prior state
    exists, or it is unreadable or corrupt, the call returns normally and
    the file then holds 3. *)
Theorem increment_row_writes_successor (w : world) :
  fault w = NoFault ->
  (forall n,
     fst (get_current_row w) = Ok (JNum n) ->
     fst (increment_row w) = Ok tt /\
     file (snd (increment_row w)) =
       Parsed (state_record (JNum (n + 1)) (now_iso w))) /\
  (file w = Absent \/ file w = Unreadable \/ file w = Corrupt ->
   fst (increment_row w) = Ok tt /\
   file (snd (increment_row w)) =
     Parsed (state_record (JNum 3) (now_iso w))).
Proof.
  intros Hf.
  assert (G : forall n, cursor_of (file w) = JNum n ->
              fst (increment_row w) = Ok tt /\
              file (snd (increment_row w)) =
                Parsed (state_record (JNum (n + 1)) (now_iso w))).
  { intros n Hc. pose proof (increment_row_spec w) as H.
    rewrite Hc in H. simpl in H. rewrite Hf in H. exact H. }
  split.
  - intros n Hn. apply G.
    destruct (get_current_row_spec w) as (w' & E & _).
    rewrite E in Hn. simpl in Hn. congruence.
  - intros [E|[E|E]]; apply (G 2); rewrite E; reflexivity.
Qed.

Lemma increment_row_writes_successor_witness :
  file (snd (increment_row (Samples.store (JNum 5) NoFault))) =
    Parsed (state_record (JNum 6) Samples.stamp) /\
  file (snd (increment_row Samples.fresh)) =
    Parsed (state_record (JNum 3) Samples.stamp).
Proof.
  split.
  - exact (proj2 (proj1 (increment_row_writes_successor
                           (Samples.store (JNum 5) NoFault) eq_refl)
                        5 eq_refl)).
  - exact (proj2 (proj2 (increment_row_writes_successor
                           Samples.fresh eq_refl)
                        (or_introl eq_refl))).
Defined.

(** C8 as stated fails: when the state file cannot be opened for writing,
    a read after [reset_to_start] still returns the old cursor. *)
Lemma read_after_reset_is_base_fails :
  ~ Stated.read_after_reset_is_base Samples.read_only_at_5.
Proof.
  unfold Stated.read_after_reset_is_base. vm_compute. discriminate.
Qed.

(** C8, amended.  Whenever the state file can be opened for writing,
    [reset_to_start] returns normally and a read performed after it
    returns 2, whatever was stored before; when the write goes through,
    the file holds cursor 2 with the timestamp read from the clock. *)
Theorem reset_then_read_is_base (w : world) :
  fault w <> OpenFault ->
  fst (reset_to_start w) = Ok tt /\
  fst (get_current_row (snd (reset_to_start w))) = Ok (JNum 2) /\
  (fault w = NoFault ->
   file (snd (reset_to_start w)) =
     Parsed (state_record (JNum 2) (now_iso w))).
Proof.
  intros Hf.
  destruct (reset_to_start_spec w) as (H1 & H2 & _).
  destruct (save_state_spec (JNum 2) w) as (_ & _ & _ & H4 & _).
  rewrite H4 in H2.
  split; [exact H1|]. split.
  - destruct (get_current_row_spec (snd (reset_to_start w)))
      as (w' & E & _).
    rewrite E; simpl. rewrite H2.
    destruct (fault w); [reflexivity | congruence | reflexivity].
  - intros E. rewrite E in H2. exact H2.
Qed.

Lemma reset_then_read_is_base_witness :
  fst (get_current_row (snd (reset_to_start (Samples.store (JNum 41) NoFault))))
  = Ok (JNum 2).
Proof.
  refine (proj1 (proj2 (reset_then_read_is_base
                          (Samples.store (JNum 41) NoFault) _))).
  simpl. discriminate.
Defined.

(** C9 as stated fails twice: [increment_row] raises [TypeError] when
    [current_row] holds a text, whether or not the file is writable; and
    when the dump fails after [open] has truncated the file, the next read
    returns the base value 2, not the old cursor 5. *)
Lemma write_failure_is_harmless_fails :
  ~ Stated.write_failure_is_harmless Samples.text_cursor_read_only /\
  ~ Stated.write_failure_is_harmless Samples.disk_full_at_5.
Proof.
  split; intros (H1 & H2 & H3).
  - vm_compute in H1. discriminate.
  - destruct H3 as [_ H3]; [simpl; discriminate|].
    vm_compute in H3. discriminate.
Qed.

(** C9, amended.  [reset_to_start] never raises, and [increment_row] does
    not raise when the persisted cursor is an integer (or the state is
    missing, unreadable or corrupt).  When the state file cannot be opened
    for writing, the failure is caught and logged and the file is left as
    it was, so a later [get_current_row] returns the old value. *)
Theorem failed_open_keeps_cursor (w : world) :
  fst (reset_to_start w) = Ok tt /\
  (forall n, fst (get_current_row w) = Ok (JNum n) ->
             fst (increment_row w) = Ok tt) /\
  (fault w = OpenFault ->
   file (snd (reset_to_start w)) = file w /\
   file (snd (increment_row w)) = file w /\
   In (ErrSaving OSError) (log (snd (reset_to_start w))) /\
   fst (get_current_row (snd (reset_to_start w))) = fst (get_current_row w) /\
   fst (get_current_row (snd (increment_row w))) = fst (get_current_row w)).
Proof.
  destruct (reset_to_start_spec w) as (H1 & H2 & H3).
  destruct (save_state_spec (JNum 2) w) as (_ & _ & _ & H4 & H5).
  pose proof (increment_row_spec w) as HI.
  split; [exact H1|]. split.
  - intros n Hn.
    destruct (get_current_row_spec w) as (w0 & E0 & _).
    rewrite E0 in Hn. simpl in Hn. injection Hn as Hn.
    rewrite Hn in HI. simpl in HI. tauto.
  - intros Hf. rewrite Hf in *.
    assert (R : file (snd (reset_to_start w)) = file w) by congruence.
    assert (I : file (snd (increment_row w)) = file w).
    { destruct (py_add1 (cursor_of (file w))); tauto. }
    repeat split; auto.
    + rewrite H3, H5 by discriminate.
      apply in_or_app; left; apply in_or_app; right; left; reflexivity.
    + destruct (get_current_row_spec (snd (reset_to_start w))) as (? & E & _).
      destruct (get_current_row_spec w) as (? & E' & _).
      rewrite E, E', R. reflexivity.
    + destruct (get_current_row_spec (snd (increment_row w))) as (? & E & _).
      destruct (get_current_row_spec w) as (? & E' & _).
      rewrite E, E', I. reflexivity.
Qed.

Lemma failed_open_keeps_cursor_witness :
  fst (get_current_row (snd (increment_row Samples.read_only_at_5)))
  = Ok (JNum 5) /\
  fst (increment_row Samples.read_only_at_5) = Ok tt.
Proof.
  destruct (failed_open_keeps_cursor Samples.read_only_at_5)
    as (_ & Hn & Ho).
  split.
  - destruct (Ho eq_refl) as (_ & _ & _ & _ & H). rewrite H. reflexivity.
  - apply (Hn 5). reflexivity.
Defined.

End CursorStore.

(** * Title enrichment *)

Section Benefits.
Import GoogleSheetsReader.

Lemma blank_separators_replace (title : str) :
  replace_char 45 32 (replace_char en_dash 32 (replace_char 47 32 title))
  = blank_separators title.
Proof.
  unfold replace_char, blank_separators. rewrite !map_map.
  apply map_ext. intros c.
  destruct (N.eqb_spec c 47) as [->|H1]; [reflexivity|].
  destruct (N.eqb_spec c en_dash) as [->|H2]; [reflexivity|].
  simpl. destruct (c =? 45)%N; reflexivity.
Qed.

Lemma benefits_step_keeps (acc : list str) (sentence : str) :
  benefits_step acc sentence =
  acc ++ filter code_keeps [strip sentence].
Proof.
  unfold benefits_step, code_keeps. simpl.
  destruct (has_keyword (strip sentence)); simpl.
  - rewrite Z.gtb_ltb.
    destruct ((20 <? len (strip sentence)) && (len (strip sentence) <? 150));
      [reflexivity | now rewrite app_nil_r].
  - now rewrite app_nil_r.
Qed.

Lemma benefits_loop (sentences acc : list str) :
  fold_left benefits_step sentences acc =
  acc ++ filter code_keeps (map strip sentences).
Proof.
  revert acc; induction sentences as [|s rest IH]; intros acc; simpl.
  - now rewrite app_nil_r.
  - rewrite IH, benefits_step_keeps. simpl.
    destruct (code_keeps (strip s)); simpl.
    + now rewrite <- app_assoc.
    + now rewrite app_nil_r.
Qed.

(** C6 as stated fails.  A hyphen in the title does not cut it: the
    hyphen becomes a blank and the whole title is one fragment.  And a
    matching fragment of exactly 20 code points is dropped. *)
Lemma benefits_as_stated_fails :
  _extract_benefits_from_title
    (u "Organic Kelp Fertilizer - Promotes Healthy Root Growth")
  = u "Organic Kelp Fertilizer   Promotes Healthy Root Growth" /\
  spec_benefits default_benefits_no_match
    (u "Organic Kelp Fertilizer - Promotes Healthy Root Growth")
  = u "Organic Kelp Fertilizer. Promotes Healthy Root Growth" /\
  _extract_benefits_from_title (u "organic garden soils")
  = default_benefits_no_match /\
  spec_benefits default_benefits_no_match (u "organic garden soils")
  = u "organic garden soils".
Proof. repeat split; vm_compute; reflexivity. Qed.

(** C6, amended.  For every title: an empty title gives "provides
    excellent nutrition for your plants".  Otherwise '/', en-dash and
    hyphen are replaced by blanks, the title is split on '|' only, each
    fragment is trimmed, and the fragments kept are those that contain a
    keyword (case-insensitively) and whose length is more than 20 and less
    than 150; the first two kept are joined with ". ", and with none kept
    the result is "provides excellent nutrition and support for healthy
    plant growth". *)
Theorem extract_benefits_rule (title : str) :
  _extract_benefits_from_title title =
  match title with
  | [] => u "provides excellent nutrition for your plants"
  | _ :: _ =>
      match filter code_keeps
                   (map strip (split_char 124 (blank_separators title))) with
      | [] =>
          u "provides excellent nutrition and support for healthy plant growth"
      | kept => join (u ". ") (firstn 2 kept)
      end
  end.
Proof.
  destruct title as [|c title]; [reflexivity|].
  unfold _extract_benefits_from_title.
  rewrite blank_separators_replace, benefits_loop. simpl app.
  destruct (filter code_keeps _); reflexivity.
Qed.

End Benefits.

(** * Script synthesis *)

Section Script.
Import ScriptGenerator.

(** C7. For every product record, [generate_script] returns a script (its
    [except] branch is never taken) with exactly 3 scenes numbered 1, 2, 3
    of 7, 18 and 5 seconds and a total duration of 30; the hook is the
    first hook and the education text the first template, filled from the
    record's fields or, where a field is missing, from the defaults. *)
Theorem generate_script_shape (product_data : record) (lg : list event) :
  exists s,
    generate_script product_data lg =
      (Ok (Script s), lg ++ [InfoGenerated (product_name s)]) /\
    List.length (scenes s) = 3%nat /\
    map scene_number (scenes s) = [1; 2; 3] /\
    map duration (scenes s) = [7; 18; 5] /\
    total_duration s = 30 /\
    map text (scenes s) = [hook s; education s; cta s] /\
    Some (hook s) = nth_error hooks 0 /\
    product_name s =
      get (u "product_name") product_data (u "our organic product") /\
    Some (education s) =
      nth_error
        (education_templates
           (product_name s)
           (get (u "key_ingredient") product_data (u "natural ingredients"))
           (get (u "benefits") product_data
                (u "amazing benefits for your plants")))
        0.
Proof.
  cbv [generate_script try_except bind lift ret logger py_index nth_error
       hooks education_templates map].
  match goal with
  | |- exists s, (Ok (Script ?x), _) = _ /\ _ => exists x
  end.
  split; [reflexivity|].
  cbn [scenes scene_number duration total_duration text hook education cta
       product_name map List.length].
  repeat split.
Qed.

End Script.

(** * Video producer *)

Section VideoProducer.
Import ScriptGenerator PictoryVideoCreator.

Lemma poll_once_cases (id : json) (w : world) :
  exists r w',
    poll_once id w = (Ok r, w') /\
    access_token w' = access_token w /\
    clock w <= clock w' /\
    match r with
    | Some v => ends_with w' (InfoCompleted v) \/
                (v = JNull /\ ends_with w' ErrJobFailed)
    | None => clock w + 30 <= clock w'
    end.
Proof.
  unfold poll_once, try_except, bind, get_access_token_field, http, lift,
    logger, time_sleep, ret, response_json, ends_with.
  destruct w as [ck nt st tk lg]; cbn [net clock sent access_token log].
  destruct nt as [|[l|l r] rest]; cbn [net clock sent access_token log].
  - do 2 eexists. split; [reflexivity|]. cbn. repeat split; lia.
  - do 2 eexists. split; [reflexivity|]. cbn. repeat split; lia.
  - destruct (status_code r =? 200).
    2:{ do 2 eexists. split; [reflexivity|]. cbn. repeat split; lia. }
    destruct (body r) as [j|].
    2:{ do 2 eexists. split; [reflexivity|]. cbn. repeat split; lia. }
    destruct (py_get j (u "data") (JDict [])) as [data|e|] eqn:E1;
      cbn [net clock sent access_token log].
    2:{ do 2 eexists. split; [reflexivity|]. cbn. repeat split; lia. }
    2:{ destruct j; discriminate. }
    destruct (py_get data (u "status") JNull) as [status|e|] eqn:E2;
      cbn [net clock sent access_token log].
    2:{ do 2 eexists. split; [reflexivity|]. cbn. repeat split; lia. }
    2:{ destruct data; discriminate. }
    destruct (is_str status (u "completed")).
    + destruct (py_get data (u "videoURL") JNull) as [url|e|] eqn:E3;
        cbn [net clock sent access_token log].
      * do 2 eexists. split; [reflexivity|]. cbn. repeat split; try lia.
        left. eexists. reflexivity.
      * destruct data; discriminate.
      * destruct data; discriminate.
    + destruct (is_str status (u "failed")).
      * do 2 eexists. split; [reflexivity|]. cbn. repeat split; try lia.
        right. split; [reflexivity|]. eexists. reflexivity.
      * do 2 eexists. split; [reflexivity|]. cbn. repeat split; lia.
Qed.

Lemma wait_loop_cases (budget : nat) (id : json) (start mw : Z) :
  forall w,
    (1 <= budget)%nat ->
    mw - (clock w - start) <= 30 * (Z.of_nat budget - 1) ->
    exists v w',
      wait_loop budget id start mw w = (Ok v, w') /\
      access_token w' = access_token w /\
      clock w <= clock w' /\
      wait_ended v w' (start + mw).
Proof.
  induction budget as [|b IH]; intros w Hb Hrem; [lia|].
  cbn [wait_loop]. unfold bind at 1. unfold time_time at 1.
  destruct (clock w - start <? mw) eqn:G.
  - apply Z.ltb_lt in G.
    unfold bind at 1.
    destruct (poll_once_cases id w) as (r & w1 & E & Ht & Hc & Hr).
    rewrite E. destruct r as [v|].
    + exists v, w1. unfold ret. repeat split; auto.
      destruct Hr as [H|H]; [left|right; left]; exact H.
    + destruct (IH w1) as (v & w2 & E2 & Ht2 & Hc2 & He); try lia.
      exists v, w2. repeat split; auto; try congruence; lia.
  - apply Z.ltb_ge in G.
    unfold bind, logger, ret. do 2 eexists. split; [reflexivity|].
    cbn. repeat split; try lia.
    right; right. repeat split; [eexists; reflexivity | cbn; lia].
Qed.

Lemma poll_budget_enough (mw : Z) :
  (1 <= poll_budget mw)%nat /\
  mw <= 30 * (Z.of_nat (poll_budget mw) - 1).
Proof.
  unfold poll_budget. split; [lia|].
  rewrite Nat2Z.inj_add. simpl Z.of_nat.
  destruct (Z.le_gt_cases mw 0) as [H|H].
  - lia.
  - rewrite Z2Nat.id by (apply Z.div_pos; lia).
    pose proof (Z.mul_div_le (mw + 29) 30 ltac:(lia)).
    pose proof (Z.mod_pos_bound (mw + 29) 30 ltac:(lia)).
    pose proof (Z.div_mod (mw + 29) 30 ltac:(lia)). lia.
Qed.

Lemma wait_for_video_completion_cases (id : json) (mw : Z) (w : world) :
  exists v w',
    _wait_for_video_completion id mw w = (Ok v, w') /\
    access_token w' = access_token w /\
    clock w <= clock w' /\
    wait_ended v w' (clock w + mw).
Proof.
  unfold _wait_for_video_completion, bind at 1, time_time at 1.
  destruct (poll_budget_enough mw) as [H1 H2].
  apply wait_loop_cases; [exact H1 | lia].
Qed.







Lemma create_video_encrypted (c : creator) (script : script_doc)
      (pd : record) (w : world) :
  test_mode c = false ->
  starts_with (u "AQICA") (api_key c) = true ->
  fst (create_video c script pd w) =
    Ok (Some (mock_video (u "encrypted_key_test_") (clock w)
                (Some (u "Created with encrypted keys - test mode")))) /\
  sent (snd (create_video c script pd w)) = sent w.
Proof.
  intros Ht Hk. unfold create_video, try_except. rewrite Ht, Hk.
  split; reflexivity.
Qed.

Lemma create_video_unauthorised (c : creator) (script : script_doc)
      (pd : record) (w w1 : world) :
  test_mode c = false ->
  starts_with (u "AQICA") (api_key c) = false ->
  have_token c w = (Ok false, w1) ->
  create_video c script pd w = (Ok None, w1).
Proof.
  intros Ht Hk Ha. unfold create_video, try_except. rewrite Ht, Hk.
  unfold bind at 1. rewrite Ha. reflexivity.
Qed.

Lemma create_video_live (c : creator) (script : script_doc)
      (pd : record) (w w1 : world) :
  test_mode c = false ->
  starts_with (u "AQICA") (api_key c) = false ->
  have_token c w = (Ok true, w1) ->
  match accepted_job w1 with
  | Some id =>
      exists url,
        fst (create_video c script pd w) =
          Ok (Some (mkVideo id url
                      (if truthy url then u "completed" else u "processing")
                      None))
  | None => fst (create_video c script pd w) = Ok None
  end.
Proof.
  intros Ht Hk Ha. unfold create_video, try_except. rewrite Ht, Hk.
  unfold bind, get_access_token_field, lift, response_json, py_get, ret.
  rewrite Ha. cbn [negb].
  unfold http, accepted_job, logger.
  destruct (net w1) as [|[l|l r] rest]; try reflexivity.
  destruct ((status_code r =? 200) || (status_code r =? 201));
    [|reflexivity].
  destruct (body r) as [j|]; [|reflexivity].
  destruct j as [| | | | |d]; try reflexivity.
  destruct (lookup (u "job") d) as [job|].
  - destruct job as [| | | | |jd]; try reflexivity.
    destruct (lookup (u "id") jd) as [id|]; [|reflexivity].
    destruct (truthy id); [|reflexivity].
    match goal with |- context [_wait_for_video_completion id 600 ?w3] =>
      destruct (wait_for_video_completion_cases id 600 w3)
        as (url & w4 & E4 & _)
    end.
    exists url. rewrite E4. reflexivity.
  - reflexivity.
Qed.

(** C3 as stated fails: in live mode a refused token request, and a
    refused job submission, both make [create_video] return [None]; no
    completed result is synthesized. *)
Lemma degrades_to_simulation_fails :
  fst (have_token VideoSamples.live VideoSamples.token_refused) = Ok false /\
  ~ StatedVideo.degrades_to_simulation VideoSamples.live
      VideoSamples.no_script VideoSamples.no_fields
      VideoSamples.token_refused /\
  accepted_job (snd (have_token VideoSamples.live
                       VideoSamples.submission_refused)) = None /\
  ~ StatedVideo.degrades_to_simulation VideoSamples.live
      VideoSamples.no_script VideoSamples.no_fields
      VideoSamples.submission_refused.
Proof.
  split; [reflexivity|]. split.
  { intros (v & H & _). vm_compute in H. discriminate. }
  split; [reflexivity|].
  intros (v & H & _). vm_compute in H. discriminate.
Qed.

(** C3, amended.  In live mode, only an API key that looks KMS-encrypted
    (it starts with "AQICA") makes [create_video] fall back to simulation:
    it returns a synthesized completed result and sends nothing.  With any
    other key, a failed authentication makes it return [None], and so does
    a job submission that is not accepted (request error, status other
    than 200 or 201, no JSON body, no job id). *)
Theorem live_failure_returns_none (c : creator) (script : script_doc)
        (pd : record) (w : world) :
  test_mode c = false ->
  (starts_with (u "AQICA") (api_key c) = true ->
   fst (create_video c script pd w) =
     Ok (Some (mock_video (u "encrypted_key_test_") (clock w)
                 (Some (u "Created with encrypted keys - test mode")))) /\
   sent (snd (create_video c script pd w)) = sent w) /\
  (starts_with (u "AQICA") (api_key c) = false ->
   (forall w1, have_token c w = (Ok false, w1) ->
               create_video c script pd w = (Ok None, w1)) /\
   (forall w1, have_token c w = (Ok true, w1) ->
               accepted_job w1 = None ->
               fst (create_video c script pd w) = Ok None)).
Proof.
  intros Ht. split.
  - intros Hk. now apply create_video_encrypted.
  - intros Hk. split.
    + intros w1 Ha. now apply create_video_unauthorised.
    + intros w1 Ha Hj.
      pose proof (create_video_live c script pd w w1 Ht Hk Ha) as H.
      rewrite Hj in H. exact H.
Qed.

Lemma live_failure_returns_none_witness :
  fst (create_video VideoSamples.live VideoSamples.no_script
         VideoSamples.no_fields VideoSamples.token_refused) = Ok None /\
  status (mock_video (u "encrypted_key_test_") 1000 None) = u "completed".
Proof.
  split; [|reflexivity].
  destruct (live_failure_returns_none VideoSamples.live
              VideoSamples.no_script VideoSamples.no_fields
              VideoSamples.token_refused eq_refl) as [_ H].
  destruct (H eq_refl) as [H1 _].
  rewrite (H1 _ eq_refl). reflexivity.
Defined.




(** A job that is never resolved: 20 polls, 30 seconds apart, then the
    time-out; the result is "processing" with a null [video_url]. *)
Example unresolved_job_times_out :
  let r := create_video VideoSamples.live VideoSamples.no_script
                        VideoSamples.no_fields
                        VideoSamples.job_never_answers in
  fst r = Ok (Some (mkVideo (JStr (u "job-1")) JNull (u "processing") None)) /\
  clock (snd r) = 1000 + 1 + 600 /\
  List.length (sent (snd r)) = 21%nat.
Proof. vm_compute. repeat split. Qed.

End VideoProducer.

(** * Publisher *)

Section Publisher.
Import ScriptGenerator SocialPilotPoster.

Lemma try_method_cases (m : auth_method) (w : world) :
  exists r w',
    try_method m w = (Ok r, w') /\
    sent w' = sent w ++ [GetAccounts m] /\
    readable w' = readable w /\ now_iso w' = now_iso w /\
    (r <> None -> headers w' = Some m).
Proof.
  unfold try_method, try_except, bind, http, set_headers, lift, ret,
    response_json.
  destruct w as [nt st hd rd ts]; cbn [net sent headers readable now_iso].
  destruct nt as [|[l|l r] rest];
    try (do 2 eexists; split; [reflexivity|]; cbn; repeat split; congruence).
  destruct (status_code r =? 200);
    try (do 2 eexists; split; [reflexivity|]; cbn; repeat split; congruence).
  destruct (body r) as [j|];
    try (do 2 eexists; split; [reflexivity|]; cbn; repeat split; congruence).
  destruct (py_get j (u "data") (JList [])) as [data|e|] eqn:E;
    [| |destruct j; discriminate];
    do 2 eexists; (split; [reflexivity|]); cbn; repeat split; congruence.
Qed.

Lemma try_methods_cases (ms : list auth_method) :
  forall w, exists accs w1 tried,
    try_methods ms w = (Ok accs, w1) /\
    sent w1 = sent w ++ map GetAccounts tried /\
    readable w1 = readable w /\ now_iso w1 = now_iso w /\
    (truthy accs = true -> headers w1 <> None).
Proof.
  induction ms as [|m ms IH]; intros w; cbn [try_methods].
  - exists (JList []), w, []. unfold ret. cbn.
    rewrite app_nil_r. repeat split; discriminate.
  - unfold bind.
    destruct (try_method_cases m w) as (r & w' & E & Hs & Hr & Hn & Hh).
    rewrite E. destruct r as [v|].
    + exists v, w', [m]. unfold ret. repeat split; auto.
      intros _. rewrite Hh; discriminate.
    + destruct (IH w') as (accs & w1 & tried & E1 & Hs1 & Hr1 & Hn1 & Hh1).
      exists accs, w1, (m :: tried). rewrite E1. repeat split; auto.
      * rewrite Hs1, Hs, <- app_assoc. reflexivity.
      * congruence.
      * congruence.
Qed.

Lemma get_accounts_cases (w : world) :
  exists accs w1 tried,
    get_accounts w = (Ok accs, w1) /\
    sent w1 = sent w ++ map GetAccounts tried /\
    readable w1 = readable w /\ now_iso w1 = now_iso w /\
    (truthy accs = true -> headers w1 <> None).
Proof. apply try_methods_cases. Qed.

Lemma py_get_cases (v : json) (k : str) (d : json) :
  (exists x, py_get v k d = Ok x) \/ py_get v k d = Raise AttributeError.
Proof. destruct v; simpl; eauto. Qed.

Lemma upload_media_cases (vp : str) (w : world) :
  exists mid w2,
    upload_media vp w = (Ok mid, w2) /\
    headers w2 = headers w /\ now_iso w2 = now_iso w /\
    (sent w2 = sent w \/ sent w2 = sent w ++ [PostMedia vp]).
Proof.
  unfold upload_media, try_except, bind, open_rb, http, lift, ret,
    response_json.
  destruct (existsb (str_eqb vp) (readable w));
    [|do 2 eexists; split; [reflexivity|]; auto].
  destruct w as [nt st hd rd ts]; cbn [net sent headers readable now_iso].
  destruct nt as [|[l|l r] rest];
    try (do 2 eexists; split; [reflexivity|]; cbn; auto).
  destruct (status_code r =? 200);
    try (do 2 eexists; split; [reflexivity|]; cbn; auto).
  destruct (body r) as [j|];
    try (do 2 eexists; split; [reflexivity|]; cbn; auto).
  destruct (py_get_cases j (u "data") (JDict [])) as [[data ->]| ->];
    try (do 2 eexists; split; [reflexivity|]; cbn; auto).
  destruct (py_get_cases data (u "id") JNull) as [[id ->]| ->];
    do 2 eexists; (split; [reflexivity|]); cbn; auto.
Qed.

Lemma create_post_cases (ids : list json) (text : str) (mid : json)
      (w : world) :
  exists pr w3,
    create_post ids text mid w = (Ok pr, w3) /\
    now_iso w3 = now_iso w /\
    (forall h, headers w = Some h ->
       sent w3 = sent w ++
         [PostPosts h ids text (if truthy mid then Some [mid] else None)]) /\
    ((exists msg, pr = error_dict msg) \/
     (exists l r rest, net w = Reply l r :: rest /\ status_code r = 200 /\
                       body r = Some pr)).
Proof.
  unfold create_post, try_except, bind, get_headers, http, lift, ret,
    response_json.
  destruct w as [nt st hd rd ts]; cbn [net sent headers readable now_iso].
  destruct hd as [h|]; cbn [net sent headers readable now_iso].
  2:{ do 2 eexists; split; [reflexivity|]; cbn.
      repeat split; try discriminate. left; eexists; reflexivity. }
  destruct nt as [|[l|l r] rest]; cbn [net sent headers readable now_iso].
  1,2: (do 2 eexists; split; [reflexivity|]; cbn;
        repeat split; [intros ? [= <-]; reflexivity|
                       left; eexists; reflexivity]).
  destruct (status_code r =? 200) eqn:S.
  2:{ do 2 eexists; split; [reflexivity|]; cbn.
      repeat split; [intros ? [= <-]; reflexivity|
                     left; eexists; reflexivity]. }
  destruct (body r) as [j|] eqn:B; cbn.
  - do 2 eexists; split; [reflexivity|]; cbn.
    repeat split; [intros ? [= <-]; reflexivity|].
    right. exists l, r, rest. apply Z.eqb_eq in S. auto.
  - do 2 eexists; split; [reflexivity|]; cbn.
    repeat split; [intros ? [= <-]; reflexivity|
                   left; eexists; reflexivity].
Qed.

Lemma format_results_cases (mid : json) (accounts : list json) :
  forall i w entries w',
    format_results mid i accounts w = (Ok entries, w') ->
    w' = w /\
    List.length entries = List.length accounts /\
    forall k e, nth_error entries k = Some e ->
      exists acc,
        nth_error accounts k = Some acc /\
        entry_status e = u "posted" /\
        post_id e = [Lit (u "sp_"); Fmt mid; Lit (u "_");
                     Fmt (JNum (i + Z.of_nat k))] /\
        url e = [Lit (u "https://socialpilot.co/posts/"); Fmt mid] /\
        py_get acc (u "name")
               (JStr (u "Account_" ++ str_of_Z (i + Z.of_nat k + 1)))
          = Ok (account e) /\
        scheduled_time e = now_iso w.
Proof.
  induction accounts as [|acc rest IH]; intros i w entries w' H.
  - cbn in H. injection H as <- <-. repeat split; auto.
    intros [|k] e; discriminate.
  - cbn [format_results] in H. unfold bind at 1 in H.
    unfold post_entry_for, bind, lift, datetime_now_isoformat, ret in H.
    destruct (py_get acc (u "type") (JStr (u "unknown"))) as [ty|?|];
      try discriminate.
    destruct (py_lower ty) as [pf|?|]; try discriminate.
    destruct (py_get acc (u "name") _) as [nm|?|] eqn:En; try discriminate.
    destruct (format_results mid (i + 1) rest w) as [[es|?|] w2] eqn:E;
      try discriminate.
    injection H as <- <-.
    destruct (IH _ _ _ _ E) as (-> & Hl & Hk).
    repeat split; [cbn; congruence|].
    intros [|k] e Hn.
    + injection Hn as <-. exists acc. cbn.
      rewrite Z.add_0_r. repeat split; auto.
    + cbn in Hn. destruct (Hk _ _ Hn) as (a & H1 & H2 & H3 & H4 & H5 & H6).
      exists a. cbn [nth_error]. repeat split; auto.
      * rewrite H3.
        replace (i + 1 + Z.of_nat k) with (i + Z.of_nat (S k)) by lia.
        reflexivity.
      * rewrite <- H5.
        replace (i + 1 + Z.of_nat k + 1) with (i + Z.of_nat (S k) + 1) by lia.
        reflexivity.
Qed.

Lemma account_ids_of_list (accounts : json) (ids : list json) :
  truthy accounts = true ->
  account_ids_of accounts = Ok ids ->
  exists accs, accounts = JList accs /\ accs <> [] /\
    map_result (fun acc => py_getitem acc (u "id")) (firstn 3 accs) = Ok ids.
Proof.
  intros T H. destruct accounts as [| | |s|l|d]; try discriminate.
  - destruct s as [|c s]; [discriminate|]. discriminate.
  - exists l. split; [reflexivity|]. split; [|exact H].
    destruct l; [discriminate|discriminate].
Qed.

Lemma post_video_success (vp : str) (script : script_doc) (pd : record)
      (w : world) (o : outcome) (w' : world) :
  post_video vp script pd w = (Ok o, w') ->
  outcome_status o = u "success" ->
  exists accs w1 mid w2 ids pr,
    get_accounts w = (Ok (JList accs), w1) /\ accs <> [] /\
    upload_media vp w1 = (Ok mid, w2) /\ truthy mid = true /\
    map_result (fun acc => py_getitem acc (u "id")) (firstn 3 accs) = Ok ids /\
    create_post ids (post_text_of script pd) mid w2 = (Ok pr, w') /\
    py_in (u "error") pr = Ok false /\
    format_results mid 0 (firstn 3 accs) w' = (Ok (posts_of o), w').
Proof.
  intros H S. unfold post_video in H. unfold bind at 1 in H.
  destruct (get_accounts_cases w) as (accounts & w1 & tried & E1 & _).
  rewrite E1 in H.
  destruct (truthy accounts) eqn:T; cbn [negb] in H.
  2:{ injection H as <- <-. vm_compute in S. discriminate. }
  unfold bind at 1, lift at 1 in H.
  destruct (py_len accounts) as [n|?|]; try discriminate.
  unfold bind at 1 in H.
  destruct (upload_media_cases vp w1) as (mid & w2 & E2 & _).
  rewrite E2 in H.
  destruct (truthy mid) eqn:Tm; cbn [negb] in H.
  2:{ injection H as <- <-. vm_compute in S. discriminate. }
  unfold bind at 1, lift at 1 in H.
  destruct (account_ids_of accounts) as [ids|?|] eqn:Ei; try discriminate.
  destruct (account_ids_of_list _ _ T Ei) as (accs & -> & Hne & Hids).
  unfold bind at 1 in H.
  destruct (create_post_cases ids (post_text_of script pd) mid w2)
    as (pr & w3 & E3 & _).
  rewrite E3 in H.
  unfold bind at 1, lift at 1 in H.
  destruct (py_in (u "error") pr) as [[|]|?|] eqn:Pe; try discriminate.
  { unfold bind, lift, ret in H.
    destruct (py_getitem pr (u "error")); try discriminate.
    injection H as <- <-. vm_compute in S. discriminate. }
  unfold bind at 1, lift at 1 in H.
  destruct (py_get pr (u "data") (JDict [])); try discriminate.
  unfold bind at 1, lift at 1 in H. cbn [py_slice3] in H.
  unfold bind at 1, lift at 1 in H. cbn [py_iter] in H.
  unfold bind at 1 in H.
  destruct (format_results mid 0 (firstn 3 accs) w3) as [[es|?|] w4] eqn:Ef;
    try discriminate.
  destruct (format_results_cases _ _ _ _ _ _ Ef) as (-> & _).
  unfold ret in H. injection H as <- <-.
  exists accs, w1, mid, w2, ids, pr. cbn [posts_of]. repeat split; auto.
Qed.


(** C10. Whenever [post_video] returns status "success", the results hold
    exactly min(3, number of discovered accounts) entries, the k-th for the
    k-th discovered account; each has status "posted", and its [post_id]
    and [url] are put together from the media id of the upload and the
    index, not from the answer to the post request.  The one post request
    sent is addressed to the ids of the first 3 accounts only. *)
Theorem post_video_success_results (vp : str) (script : script_doc)
        (pd : record) (w : world) (o : outcome) (w' : world) :
  post_video vp script pd w = (Ok o, w') ->
  outcome_status o = u "success" ->
  exists accs w1 mid w2 ids h,
    get_accounts w = (Ok (JList accs), w1) /\
    upload_media vp w1 = (Ok mid, w2) /\
    List.length (posts_of o) = Nat.min 3 (List.length accs) /\
    (forall k e, nth_error (posts_of o) k = Some e ->
       exists acc,
         nth_error accs k = Some acc /\ (k < 3)%nat /\
         entry_status e = u "posted" /\
         post_id e = [Lit (u "sp_"); Fmt mid; Lit (u "_");
                      Fmt (JNum (Z.of_nat k))] /\
         url e = [Lit (u "https://socialpilot.co/posts/"); Fmt mid] /\
         py_get acc (u "name")
                (JStr (u "Account_" ++ str_of_Z (Z.of_nat k + 1)))
           = Ok (account e)) /\
    map_result (fun acc => py_getitem acc (u "id")) (firstn 3 accs) = Ok ids /\
    sent w' = sent w2 ++ [PostPosts h ids (post_text_of script pd) (Some [mid])].
Proof.
  intros H S.
  destruct (post_video_success _ _ _ _ _ _ H S)
    as (accs & w1 & mid & w2 & ids & pr & H1 & H2 & H3 & H4 & H5 & H6 & H7 & H8).
  destruct (get_accounts_cases w) as (a & w1' & tried & E1 & _ & _ & _ & Hh).
  rewrite H1 in E1. injection E1 as <- <-.
  assert (Hh1 : headers w1 <> None).
  { apply Hh. destruct accs; [congruence|reflexivity]. }
  destruct (upload_media_cases vp w1) as (m & w2' & E2 & Hh2 & _).
  rewrite H3 in E2. injection E2 as <- <-.
  destruct (headers w2) as [h|] eqn:Eh; [|congruence].
  destruct (create_post_cases ids (post_text_of script pd) mid w2)
    as (p & w3 & E3 & _ & Hs & _).
  rewrite H6 in E3. injection E3 as <- <-.
  specialize (Hs h Eh). rewrite H4 in Hs.
  destruct (format_results_cases _ _ _ _ _ _ H8) as (_ & Hl & Hk).
  exists accs, w1, mid, w2, ids, h. repeat split; auto.
  - rewrite Hl. apply length_firstn.
  - intros k e Hn. destruct (Hk k e Hn) as (acc & A1 & A2 & A3 & A4 & A5 & _).
    rewrite nth_error_firstn in A1.
    destruct (Nat.ltb_spec k 3) as [Lt|Ge]; [|discriminate].
    exists acc. repeat split; auto.
Qed.


Lemma post_video_success_results_witness :
  exists o w',
    post_video PosterSamples.video_path EmptyDict []
               PosterSamples.all_goes_well = (Ok o, w') /\
    List.length (posts_of o) = 3%nat.
Proof.
  eexists. eexists. split; [vm_compute; reflexivity|].
  match goal with
  | |- List.length (posts_of ?o) = _ =>
      destruct (post_video_success_results PosterSamples.video_path
                  EmptyDict [] PosterSamples.all_goes_well o _
                  eq_refl eq_refl)
        as (accs & w1 & mid & w2 & ids & h & G & _ & L & _)
  end.
  rewrite L. vm_compute in G. injection G as <- _. reflexivity.
Defined.

End Publisher.

(** * Cursor store: round trip, repeated runs, log *)

Section CursorStoreMore.
Import StateManager Runs.

Lemma cursor_of_state_record (row : json) (ts : str) :
  cursor_of (Parsed (state_record row ts)) = row.
Proof. reflexivity. Qed.

(** X1. What [_save_state] writes, [get_current_row] reads back: when the
    write goes through, a read after [_save_state row] returns [row]. *)
Theorem save_then_read_round_trip (row : json) (w : world) :
  fault w = NoFault ->
  fst (get_current_row (snd (_save_state row w))) = Ok row.
Proof.
  intros Hf.
  destruct (save_state_spec row w) as (_ & _ & _ & H & _).
  rewrite Hf in H.
  destruct (get_current_row_spec (snd (_save_state row w))) as (w' & E & _).
  rewrite E; simpl. rewrite H. reflexivity.
Qed.

Lemma save_then_read_round_trip_witness :
  fst (StateManager.get_current_row
         (snd (StateManager._save_state (JNum 7) Samples.fresh)))
  = Ok (JNum 7).
Proof.
  exact (save_then_read_round_trip (JNum 7) Samples.fresh eq_refl).
Defined.

Lemma increment_row_keeps_fault (w : world) :
  fault (snd (increment_row w)) = fault w /\
  now_iso (snd (increment_row w)) = now_iso w.
Proof.
  unfold increment_row, bind.
  destruct (get_current_row_spec w) as (w1 & E & _ & Hft & Hts).
  rewrite E. unfold lift.
  destruct (py_add1 (cursor_of (file w))) as [v'|e|]; simpl; auto.
  destruct (save_state_spec v' w1) as (H1 & H2 & H3 & _).
  destruct (_save_state v' w1) as [r w2]; simpl in *; subst r.
  unfold logger; simpl. split; congruence.
Qed.

Lemma read_is_cursor_of (w : world) :
  fst (get_current_row w) = Ok (cursor_of (file w)).
Proof.
  destruct (get_current_row_spec w) as (w' & E & _). now rewrite E.
Qed.

(** X2. With a writable state file and an integer cursor [n], [k] calls
    of [increment_row] in a row leave the cursor at [n + k]. *)
Theorem advance_times_adds (k : nat) :
  forall (w : world) (n : Z),
    fault w = NoFault ->
    fst (get_current_row w) = Ok (JNum n) ->
    fst (get_current_row (advance_times k w)) = Ok (JNum (n + Z.of_nat k)).
Proof.
  induction k as [|k IH]; intros w n Hf Hn.
  - simpl. rewrite Z.add_0_r. exact Hn.
  - cbn [advance_times].
    replace (n + Z.of_nat (S k)) with ((n + 1) + Z.of_nat k) by lia.
    apply IH.
    + rewrite (proj1 (increment_row_keeps_fault w)). exact Hf.
    + rewrite read_is_cursor_of in Hn. injection Hn as Hn.
      pose proof (increment_row_spec w) as H. rewrite Hn in H. simpl in H.
      rewrite Hf in H. destruct H as [_ H].
      rewrite read_is_cursor_of, H. reflexivity.
Qed.

Lemma advance_times_adds_witness :
  fst (get_current_row (advance_times 3 Samples.fresh)) = Ok (JNum 5).
Proof.
  exact (advance_times_adds 3 Samples.fresh 2 eq_refl eq_refl).
Defined.

(** X3. [get_current_row] logs an error exactly when the state file
    exists and cannot be used: unreadable, not JSON, or JSON that is not
    an object.  An absent file, and an object without [current_row], are
    not logged. *)
Theorem get_current_row_logs (w : world) :
  log (snd (get_current_row w)) =
  log w ++
  match file w with
  | Absent => []
  | Unreadable => [ErrReading OSError]
  | Corrupt => [ErrReading JSONDecodeError]
  | Parsed (JDict _) => []
  | Parsed _ => [ErrReading AttributeError]
  end.
Proof.
  unfold get_current_row, try_except, bind, path_exists, open_json_load,
    lift, ret, logger.
  destruct w as [f ft ts lg]; simpl.
  destruct f as [| | |[]]; simpl; try reflexivity; now rewrite app_nil_r.
Qed.

(** X4. When the write fails and the cursor is an integer [n],
    [increment_row] still returns normally and logs "Advanced from row n
    to row n+1" right after the save error, although the file does not
    hold the new cursor. *)
Theorem advance_logged_without_save (w : world) (n : Z) :
  fault w <> NoFault ->
  fst (get_current_row w) = Ok (JNum n) ->
  fst (increment_row w) = Ok tt /\
  (exists l,
     log (snd (increment_row w)) =
       l ++ [ErrSaving OSError; InfoAdvanced (JNum n) (JNum (n + 1))]) /\
  file (snd (increment_row w)) <>
    Parsed (state_record (JNum (n + 1)) (now_iso w)).
Proof.
  intros Hf Hn. rewrite read_is_cursor_of in Hn. injection Hn as Hn.
  pose proof (increment_row_spec w) as HI. rewrite Hn in HI. simpl in HI.
  destruct HI as [H1 H2]. split; [exact H1|]. split.
  - unfold increment_row, bind.
    destruct (get_current_row_spec w) as (w1 & E & _ & Hft & _).
    rewrite E, Hn. unfold lift. cbn [py_add1].
    destruct (save_state_spec (JNum (n + 1)) w1) as (S1 & _ & _ & _ & S5).
    destruct (_save_state (JNum (n + 1)) w1) as [r w2]; simpl in *; subst r.
    unfold logger; simpl. rewrite S5 by congruence.
    exists (log w1). rewrite <- app_assoc. reflexivity.
  - rewrite H2. destruct (fault w); [congruence| |discriminate].
    intros E. rewrite E in Hn. simpl in Hn. injection Hn as Hn. lia.
Qed.

Lemma advance_logged_without_save_witness :
  exists l,
    log (snd (increment_row Samples.read_only_at_5)) =
      l ++ [ErrSaving OSError; InfoAdvanced (JNum 5) (JNum 6)].
Proof.
  refine (proj1 (proj2 (advance_logged_without_save
                          Samples.read_only_at_5 5 _ eq_refl))).
  simpl. discriminate.
Defined.

End CursorStoreMore.

(** * Product name *)

Section Enrichment.
Import GoogleSheetsReader.

Lemma split_first_cons (sep c : N) (s : str) :
  split_first sep (c :: s) =
  if N.eqb c sep then [] else c :: split_first sep s.
Proof.
  unfold split_first. cbn [split_char].
  destruct (N.eqb c sep); [reflexivity|].
  destruct (split_char sep s); reflexivity.
Qed.

Lemma contains_char (c : N) (s : str) :
  contains [c] s = true <-> In c s.
Proof.
  induction s as [|x s IH]; cbn [contains starts_with In].
  - split; [discriminate|tauto].
  - rewrite orb_true_iff, andb_true_r, N.eqb_eq, IH.
    split; intros [H|H]; auto.
Qed.

Lemma in_lstrip (c : N) (s : str) : In c (lstrip s) -> In c s.
Proof.
  induction s as [|x s IH]; cbn [lstrip]; [tauto|].
  destruct (is_space x); [intros H; right; auto|tauto].
Qed.

Lemma in_strip (c : N) (s : str) : In c (strip s) -> In c s.
Proof.
  unfold strip, rstrip. intros H.
  apply in_rev, in_lstrip in H. apply in_rev in H.
  now apply in_lstrip.
Qed.

Lemma lstrip_app_nonspace (a b : str) (c : N) :
  is_space c = false -> lstrip (a ++ c :: b) = lstrip a ++ c :: b.
Proof.
  intros Hc. induction a as [|x a IH]; cbn [lstrip app].
  - now rewrite Hc.
  - destruct (is_space x); [exact IH|reflexivity].
Qed.

Lemma rstrip_app_nonspace (a b : str) (c : N) :
  is_space c = false -> rstrip (a ++ c :: b) = a ++ c :: rstrip b.
Proof.
  intros Hc. unfold rstrip.
  rewrite rev_app_distr. cbn [rev]. rewrite <- app_assoc. cbn [app].
  rewrite lstrip_app_nonspace by exact Hc.
  rewrite rev_app_distr. cbn [rev]. rewrite rev_involutive.
  rewrite <- app_assoc. reflexivity.
Qed.

Lemma lstrip_idem (s : str) : lstrip (lstrip s) = lstrip s.
Proof.
  induction s as [|x s IH]; cbn [lstrip]; [reflexivity|].
  destruct (is_space x) eqn:E; [exact IH|].
  cbn [lstrip]. now rewrite E.
Qed.

Lemma split_first_lstrip (sep : N) (s : str) :
  is_space sep = false ->
  split_first sep (lstrip s) = lstrip (split_first sep s).
Proof.
  intros Hs. induction s as [|x s IH]; [reflexivity|].
  cbn [lstrip]. rewrite split_first_cons.
  destruct (is_space x) eqn:E.
  - destruct (N.eqb_spec x sep) as [->|_]; [congruence|].
    cbn [lstrip]. rewrite E. exact IH.
  - rewrite split_first_cons.
    destruct (N.eqb x sep); [reflexivity|].
    cbn [lstrip]. now rewrite E.
Qed.

Lemma split_first_decompose (sep : N) (s : str) :
  In sep s -> exists q, s = split_first sep s ++ sep :: q.
Proof.
  induction s as [|x s IH]; [intros []|].
  intros H. rewrite split_first_cons.
  destruct (N.eqb_spec x sep) as [->|Hx].
  - exists s. reflexivity.
  - destruct H as [H|H]; [congruence|].
    destruct (IH H) as (q & E). exists q. cbn [app]. congruence.
Qed.

Lemma split_first_not_in (sep : N) (s : str) : ~ In sep (split_first sep s).
Proof.
  induction s as [|x s IH]; [intros []|].
  rewrite split_first_cons.
  destruct (N.eqb_spec x sep) as [->|Hx]; [intros []|].
  intros [H|H]; [congruence|tauto].
Qed.

Lemma split_first_app (sep : N) (a b : str) :
  ~ In sep a -> split_first sep (a ++ sep :: b) = a.
Proof.
  induction a as [|x a IH]; intros H; cbn [app].
  - rewrite split_first_cons, N.eqb_refl. reflexivity.
  - rewrite split_first_cons.
    destruct (N.eqb_spec x sep) as [->|Hx]; [exfalso; apply H; now left|].
    rewrite IH; [reflexivity|]. intros Hi. apply H. now right.
Qed.

Lemma split_first_none (sep : N) (s : str) :
  ~ In sep s -> split_first sep s = s.
Proof.
  induction s as [|x s IH]; intros H; [reflexivity|].
  rewrite split_first_cons.
  destruct (N.eqb_spec x sep) as [->|Hx]; [exfalso; apply H; now left|].
  rewrite IH; [reflexivity|]. intros Hi. apply H. now right.
Qed.

Lemma split_first_rstrip (sep : N) (s : str) :
  is_space sep = false -> In sep s ->
  split_first sep (rstrip s) = split_first sep s.
Proof.
  intros Hs Hi. destruct (split_first_decompose sep s Hi) as (q & E).
  rewrite E at 1. rewrite rstrip_app_nonspace by exact Hs.
  apply split_first_app, split_first_not_in.
Qed.

Lemma in_lstrip_nonspace (c : N) (s : str) :
  is_space c = false -> In c s -> In c (lstrip s).
Proof.
  intros Hc. induction s as [|x s IH]; [tauto|].
  cbn [lstrip]. destruct (is_space x) eqn:E; [|tauto].
  intros [H|H]; [congruence|auto].
Qed.

Lemma in_strip_nonspace (c : N) (s : str) :
  is_space c = false -> In c s -> In c (strip s).
Proof.
  intros Hc H. unfold strip, rstrip.
  apply -> in_rev. apply in_lstrip_nonspace; [exact Hc|].
  apply -> in_rev. now apply in_lstrip_nonspace.
Qed.

Lemma before_separator_split (title : str) :
  split_first 47 (split_first 45 (split_first en_dash title))
  = before_separator title.
Proof.
  induction title as [|c t IH]; [reflexivity|].
  cbn [before_separator]. rewrite split_first_cons.
  destruct (N.eqb_spec c en_dash) as [->|H1].
  { reflexivity. }
  rewrite split_first_cons.
  destruct (N.eqb_spec c 45) as [->|H2].
  { reflexivity. }
  rewrite split_first_cons.
  destruct (N.eqb_spec c 47) as [->|H3].
  { reflexivity. }
  cbn [orb]. now rewrite IH.
Qed.

Lemma before_separator_free (title : str) (c : N) :
  In c (before_separator title) -> c <> 47%N /\ c <> en_dash /\ c <> 45%N.
Proof.
  induction title as [|x t IH]; [intros []|].
  cbn [before_separator].
  destruct (N.eqb_spec x 47) as [->|H1]; [intros []|].
  destruct (N.eqb_spec x en_dash) as [->|H2]; [intros []|].
  destruct (N.eqb_spec x 45) as [->|H3]; [intros []|].
  cbn [orb]. intros [<-|H]; auto.
Qed.

(** X5. For a non-empty title the product name is the text before the
    first '/', en-dash or hyphen, trimmed; it contains none of the
    three. *)
Theorem product_name_is_trimmed_prefix (title : str) :
  title <> [] ->
  _extract_product_name_from_title title = strip (before_separator title) /\
  forall c, In c (_extract_product_name_from_title title) ->
            c <> 47%N /\ c <> en_dash /\ c <> 45%N.
Proof.
  intros Hne.
  assert (E : _extract_product_name_from_title title
              = strip (before_separator title)).
  { destruct title as [|c0 t0]; [congruence|].
    unfold _extract_product_name_from_title.
    set (a := split_first 45 (split_first en_dash (c0 :: t0))).
    rewrite <- before_separator_split. fold a.
    destruct (contains [47%N] (strip a)) eqn:C.
    - apply contains_char in C. apply in_strip in C.
      unfold strip at 2.
      rewrite split_first_rstrip;
        [|reflexivity|apply in_lstrip_nonspace; [reflexivity|exact C]].
      rewrite split_first_lstrip by reflexivity.
      unfold strip. now rewrite lstrip_idem.
    - rewrite split_first_none; [reflexivity|].
      intros Hi. apply (in_strip_nonspace 47 a eq_refl) in Hi.
      apply contains_char in Hi. congruence. }
  split; [exact E|].
  intros c Hc. rewrite E in Hc. apply in_strip in Hc.
  now apply before_separator_free in Hc.
Qed.

Lemma product_name_is_trimmed_prefix_witness :
  GoogleSheetsReader._extract_product_name_from_title SheetSamples.kelp_title
  = u "Kelp & Humic Acid Soil Booster".
Proof.
  assert (N : SheetSamples.kelp_title <> []) by (vm_compute; discriminate).
  rewrite (proj1 (product_name_is_trimmed_prefix SheetSamples.kelp_title N)).
  vm_compute. reflexivity.
Defined.

End Enrichment.

(** * Key ingredient, and bounds on the benefits text *)

Section Ingredients.
Import GoogleSheetsReader.

Lemma ingredient_loop (title_lower : str) (vocabulary acc : list str) :
  fold_left (ingredient_step title_lower) vocabulary acc =
  acc ++ filter (fun i => contains i title_lower) vocabulary.
Proof.
  revert acc; induction vocabulary as [|i rest IH]; intros acc; simpl.
  - now rewrite app_nil_r.
  - rewrite IH. unfold ingredient_step.
    destruct (contains i title_lower); simpl.
    + now rewrite <- app_assoc.
    + reflexivity.
Qed.

(** X6. For a non-empty title the key ingredient is made of the
    vocabulary entries that occur in the lower-cased title, taken in the
    order of the vocabulary (not of the title): the first alone, or the
    first two joined by ", "; with none, the fallback sentence. *)
Theorem key_ingredient_rule (title : str) :
  title <> [] ->
  _extract_key_ingredient_from_title title =
  match filter (fun i => contains i (lower title)) ingredients with
  | [] => u "organic nutrients and beneficial compounds"
  | [i] => i
  | i :: j :: _ => i ++ u ", " ++ j
  end.
Proof.
  intros Hne. destruct title as [|c t]; [congruence|].
  unfold _extract_key_ingredient_from_title.
  rewrite ingredient_loop. cbn [app].
  destruct (filter _ ingredients) as [|i [|j rest]]; reflexivity.
Qed.

Lemma key_ingredient_rule_witness :
  GoogleSheetsReader._extract_key_ingredient_from_title
    SheetSamples.kelp_title
  = u "kelp, humic acid".
Proof.
  assert (N : SheetSamples.kelp_title <> []) by (vm_compute; discriminate).
  rewrite (key_ingredient_rule SheetSamples.kelp_title N).
  vm_compute. reflexivity.
Defined.

Lemma lower_cp_fixed (c x : N) : In x (lower_cp c) -> lower_cp x = [x].
Proof.
  unfold lower_cp.
  destruct ((65 <=? c) && (c <=? 90))%N eqn:A.
  - apply andb_true_iff in A as [A1 A2].
    apply N.leb_le in A1, A2. intros [<-|[]].
    replace ((65 <=? c + 32) && (c + 32 <=? 90))%N with false
      by (symmetry; apply andb_false_iff; right; apply N.leb_gt; lia).
    replace (c + 32 =? 304)%N with false by (symmetry; apply N.eqb_neq; lia).
    replace (c + 32 =? 8490)%N with false by (symmetry; apply N.eqb_neq; lia).
    reflexivity.
  - destruct (N.eqb_spec c 304) as [->|B].
    + intros [<-|[<-|[]]]; reflexivity.
    + destruct (N.eqb_spec c 8490) as [->|C].
      * intros [<-|[]]; reflexivity.
      * intros [<-|[]]. rewrite A.
        destruct (N.eqb_spec c 304); [congruence|].
        destruct (N.eqb_spec c 8490); [congruence|]. reflexivity.
Qed.

Lemma lower_idem (s : str) : lower (lower s) = lower s.
Proof.
  unfold lower. induction s as [|c s IH]; [reflexivity|].
  cbn [flat_map]. rewrite flat_map_app, IH. f_equal.
  pose proof (lower_cp_fixed c) as H.
  induction (lower_cp c) as [|x l IHl]; [reflexivity|].
  cbn [flat_map]. rewrite (H x) by now left.
  cbn [app]. f_equal. apply IHl. intros y Hy. apply H. now right.
Qed.

Lemma lower_nonempty (s : str) : s <> [] -> lower s <> [].
Proof.
  destruct s as [|c s]; [congruence|]. intros _.
  unfold lower. cbn [flat_map]. unfold lower_cp.
  destruct ((65 <=? c) && (c <=? 90))%N; [discriminate|].
  destruct (c =? 304)%N; [discriminate|].
  destruct (c =? 8490)%N; discriminate.
Qed.

(** X7. The key ingredient does not depend on the case of the title. *)
Theorem key_ingredient_ignores_case (title : str) :
  _extract_key_ingredient_from_title (lower title) =
  _extract_key_ingredient_from_title title.
Proof.
  destruct title as [|c t]; [reflexivity|].
  pose proof (lower_nonempty (c :: t) ltac:(discriminate)) as Hl.
  unfold _extract_key_ingredient_from_title at 1.
  destruct (lower (c :: t)) as [|c' t'] eqn:E; [congruence|].
  rewrite <- E, lower_idem. reflexivity.
Qed.

End Ingredients.

Section BenefitsMore.
Import GoogleSheetsReader.

Lemma len_app (a b : str) : len (a ++ b) = len a + len b.
Proof. unfold len. rewrite length_app. lia. Qed.

(** X8. The benefits text is never empty: for every title it has more
    than 20 and at most 300 code points. *)
Theorem benefits_length_bounds (title : str) :
  20 < len (_extract_benefits_from_title title) <= 300.
Proof.
  destruct title as [|c t]; [vm_compute; split; [reflexivity|discriminate]|].
  unfold _extract_benefits_from_title.
  rewrite benefits_loop. cbn [app].
  set (l := map strip _).
  assert (K : forall x, In x (filter code_keeps l) -> 20 < len x < 150).
  { intros x Hx. apply filter_In in Hx as [_ Hx]. unfold code_keeps in Hx.
    apply andb_true_iff in Hx as [Hx H2].
    apply andb_true_iff in Hx as [_ H1].
    apply Z.ltb_lt in H1, H2. lia. }
  destruct (filter code_keeps l) as [|x [|y rest]].
  - vm_compute; split; [reflexivity|discriminate].
  - cbn [firstn join]. pose proof (K x (or_introl eq_refl)). lia.
  - cbn [firstn join]. rewrite !len_app.
    pose proof (K x (or_introl eq_refl)).
    pose proof (K y (or_intror (or_introl eq_refl))).
    change (len (u ". ")) with 2. lia.
Qed.

End BenefitsMore.

(** * Separators never reach the benefits text *)

Section BenefitsSeparators.
Import GoogleSheetsReader.

Lemma split_char_pieces (sep : N) (s : str) :
  forall p, In p (split_char sep s) ->
  forall c, In c p -> In c s /\ c <> sep.
Proof.
  induction s as [|x s IH]; cbn [split_char]; intros p Hp c Hc.
  - destruct Hp as [<-|[]]. destruct Hc.
  - destruct (N.eqb_spec x sep) as [->|Hx].
    + destruct Hp as [<-|Hp]; [destruct Hc|].
      destruct (IH p Hp c Hc). split; [now right|assumption].
    + destruct (split_char sep s) as [|q qs] eqn:E.
      * destruct Hp as [<-|[]]. destruct Hc as [<-|[]].
        split; [now left|assumption].
      * destruct Hp as [<-|Hp].
        -- destruct Hc as [<-|Hc]; [split; [now left|assumption]|].
           destruct (IH q (or_introl eq_refl) c Hc).
           split; [now right|assumption].
        -- destruct (IH p (or_intror Hp) c Hc).
           split; [now right|assumption].
Qed.

Lemma in_join (sep : str) (l : list str) (c : N) :
  In c (join sep l) -> In c sep \/ exists p, In p l /\ In c p.
Proof.
  induction l as [|p l IH]; cbn [join]; [intros []|].
  destruct l as [|q l].
  - intros H. right. exists p. split; [now left|assumption].
  - intros H. apply in_app_or in H as [H|H].
    + right. exists p. split; [now left|assumption].
    + apply in_app_or in H as [H|H]; [now left|].
      destruct (IH H) as [H'|(p' & Hp & Hc)]; [now left|].
      right. exists p'. split; [now right|assumption].
Qed.

Lemma in_firstn {A} (n : nat) (l : list A) (x : A) :
  In x (firstn n l) -> In x l.
Proof.
  revert l; induction n as [|n IH]; intros [|y l]; cbn; try tauto.
  intros [H|H]; auto.
Qed.

Lemma blank_separators_free (title : str) (c : N) :
  In c (blank_separators title) ->
  c <> 47%N /\ c <> en_dash /\ c <> 45%N.
Proof.
  unfold blank_separators. intros H. apply in_map_iff in H.
  destruct H as (x & Hx & _). subst c.
  destruct (N.eqb_spec x 47) as [E1|H1];
    [cbn; repeat split; discriminate|].
  destruct (N.eqb_spec x en_dash) as [E2|H2];
    [cbn; repeat split; discriminate|].
  destruct (N.eqb_spec x 45) as [E3|H3];
    [cbn; repeat split; discriminate|].
  cbn. auto.
Qed.

Lemma literal_free (s : str) :
  forallb (fun c => negb (is_separator c)) s = true ->
  forall c, In c s ->
    c <> 47%N /\ c <> en_dash /\ c <> 45%N /\ c <> 124%N.
Proof.
  intros H c Hc. rewrite forallb_forall in H. specialize (H c Hc).
  apply negb_true_iff in H. unfold is_separator in H.
  repeat (apply orb_false_iff in H as [H ?]).
  repeat match goal with
         | E : (_ =? _)%N = false |- _ => apply N.eqb_neq in E
         end.
  auto.
Qed.

(** X9. The benefits text never contains '/', en-dash, hyphen or '|'. *)
Theorem benefits_have_no_separator (title : str) (c : N) :
  In c (_extract_benefits_from_title title) ->
  c <> 47%N /\ c <> en_dash /\ c <> 45%N /\ c <> 124%N.
Proof.
  destruct title as [|c0 t].
  { apply literal_free. reflexivity. }
  unfold _extract_benefits_from_title.
  rewrite blank_separators_replace, benefits_loop. cbn [app].
  set (pieces := split_char 124 (blank_separators (c0 :: t))).
  destruct (filter code_keeps (map strip pieces)) as [|x rest] eqn:E.
  { apply literal_free. reflexivity. }
  rewrite <- E. intros H. apply in_join in H as [H|(p & Hp & Hc)].
  { revert H. apply literal_free. reflexivity. }
  apply in_firstn in Hp. apply filter_In in Hp as [Hp _].
  apply in_map_iff in Hp as (q & <- & Hq).
  apply in_strip in Hc.
  destruct (split_char_pieces 124 _ q Hq c Hc) as [Hi Hn].
  apply blank_separators_free in Hi. tauto.
Qed.

Lemma benefits_have_no_separator_witness :
  (75 <> 47 /\ 75 <> en_dash /\ 75 <> 45 /\ 75 <> 124)%N.
Proof.
  apply (benefits_have_no_separator SheetSamples.kelp_title 75).
  vm_compute. left. reflexivity.
Defined.

End BenefitsSeparators.


(** * Reading a row *)

Section SheetRows.
Import GoogleSheetsReader GoogleSheetsRows.



Lemma fill_fields_pure (headers : list json) (data_row : json) :
  forall i product_data,
    exists r, r <> Diverge /\
              forall w, fill_fields i headers data_row product_data w = (r, w).
Proof.
  induction headers as [|h rest IH]; intros i pd; cbn [fill_fields].
  - eexists. split; [|reflexivity]. discriminate.
  - unfold bind, lift.
    destruct (py_len data_row) as [n|e|] eqn:En.
    2:{ eexists. split; [|reflexivity]. discriminate. }
    2:{ destruct data_row; discriminate. }
    destruct (Z.of_nat i <? n).
    + destruct (py_index_int data_row i) as [cell|e|] eqn:Ec.
      2:{ eexists. split; [|reflexivity]. discriminate. }
      2:{ destruct data_row; cbn in Ec; try discriminate;
          destruct (nth_error _ i); discriminate. }
      destruct (field_key h) as [key|e|] eqn:Ek.
      2:{ eexists. split; [|reflexivity]. discriminate. }
      2:{ destruct h; discriminate. }
      apply IH.
    + destruct (field_key h) as [key|e|] eqn:Ek.
      2:{ eexists. split; [|reflexivity]. discriminate. }
      2:{ destruct h; discriminate. }
      apply IH.
Qed.

Lemma on_title_not_diverge (f : str -> str) (t : json) :
  on_title f t <> Diverge.
Proof.
  unfold on_title. destruct t as [|b|z|s|l|d]; try discriminate;
    match goal with |- context [truthy ?x] => destruct (truthy x) end;
    discriminate.
Qed.

Lemma py_index_int_not_diverge (v : json) (i : nat) :
  py_index_int v i <> Diverge.
Proof.
  destruct v; cbn; try discriminate; destruct (nth_error _ i); discriminate.
Qed.

(** The outcome of [read_row] does not depend on the log. *)
Lemma read_row_pure (values headers : json) (row : Z) :
  exists r, r <> Diverge /\
    forall w, fst (read_row values headers row w) = r /\
              tool_output (snd (read_row values headers row w))
              = tool_output w.
Proof.
  unfold read_row, bind, lift, ret, sheet_logger.
  destruct (py_index_int values (Z.to_nat (row - 1))) as [data_row|e|] eqn:E1.
  2:{ eexists. split; [|intros w; cbn [fst snd tool_output]; split; reflexivity]. discriminate. }
  2:{ now apply py_index_int_not_diverge in E1. }
  destruct (truthy data_row); cbn [negb].
  2:{ eexists. split; [|intros w; cbn [fst snd tool_output]; split; reflexivity]. discriminate. }
  destruct (py_iter headers) as [items|e|] eqn:E2.
  2:{ eexists. split; [|intros w; cbn [fst snd tool_output]; split; reflexivity]. discriminate. }
  2:{ destruct headers; discriminate. }
  destruct (fill_fields_pure items data_row 0%nat []) as (r & Hr & HF).
  destruct r as [pd|e|]; [| |congruence].
  2:{ eexists. split; [|intros w; rewrite HF; cbn [fst snd tool_output]; split; reflexivity].
      discriminate. }
  set (title := match lookup (u "title") pd with
                | Some v => v | None => JStr [] end).
  destruct (on_title _extract_benefits_from_title title) as [b|e|] eqn:Eb.
  2:{ eexists. split; [|intros w; rewrite HF; fold title; rewrite Eb;
                        cbn [fst snd tool_output]; split; reflexivity]. discriminate. }
  2:{ now apply on_title_not_diverge in Eb. }
  destruct (on_title _extract_key_ingredient_from_title title)
    as [k|e|] eqn:Ek.
  2:{ eexists. split; [|intros w; rewrite HF; fold title; rewrite Eb, Ek;
                        cbn [fst snd tool_output]; split; reflexivity]. discriminate. }
  2:{ now apply on_title_not_diverge in Ek. }
  destruct (on_title _extract_product_name_from_title title)
    as [n|e|] eqn:En.
  2:{ eexists. split; [|intros w; rewrite HF; fold title; rewrite Eb, Ek, En;
                        cbn [fst snd tool_output]; split; reflexivity]. discriminate. }
  2:{ now apply on_title_not_diverge in En. }
  eexists. split; [|intros w; rewrite HF; fold title; rewrite Eb, Ek, En;
                    cbn [fst snd tool_output]; split; reflexivity]. discriminate.
Qed.


Lemma py_len_not_diverge (v : json) : py_len v <> Diverge.
Proof. destruct v; discriminate. Qed.

Lemma py_get_not_diverge (v : json) (k : str) (d : json) :
  py_get v k d <> Diverge.
Proof. destruct v; discriminate. Qed.

(** X11. A row number below 2 is read as row 2. *)
Theorem get_product_data_clamps (row : Z) (w : sheet_world) :
  row < 2 ->
  fst (get_product_data row w) = fst (get_product_data 2 w).
Proof.
  intros Hrow.
  unfold get_product_data, try_except, bind, _call_sheets_tool, lift, ret,
    sheet_logger.
  destruct w as [t lg]; cbn [tool_output sheet_log].
  destruct (truthy t); cbn [negb]; [|reflexivity].
  destruct (py_get t (u "success") JNull) as [success|e|] eqn:E1;
    [|reflexivity|reflexivity].
  destruct (truthy success); cbn [negb]; [|reflexivity].
  destruct (py_get t (u "values") (JList [])) as [values|e|] eqn:E2;
    [|reflexivity|reflexivity].
  destruct (py_len values) as [rows|e|] eqn:E3; [|reflexivity|reflexivity].
  destruct (rows <? 2) eqn:R; [reflexivity|].
  apply Z.ltb_ge in R.
  destruct (py_index_int values 0) as [headers|e|] eqn:E4;
    [|reflexivity|reflexivity].
  replace (row >? rows) with false by (symmetry; rewrite Z.gtb_ltb; apply Z.ltb_ge; lia).
  replace (2 >? rows) with false by (symmetry; rewrite Z.gtb_ltb; apply Z.ltb_ge; lia).
  replace (row <? 2) with true by (symmetry; apply Z.ltb_lt; lia).
  change (2 <? 2) with false. cbn [tool_output sheet_log].
  destruct (read_row_pure values headers 2) as (r & Hr & HR).
  match goal with
  | |- fst (let (_, _) := read_row _ _ _ ?w1 in _) =
       fst (let (_, _) := read_row _ _ _ ?w2 in _) =>
      pose proof (proj1 (HR w1)) as H1; pose proof (proj1 (HR w2)) as H2;
      destruct (read_row values headers 2 w1) as [r1 w1'];
      destruct (read_row values headers 2 w2) as [r2 w2']
  end.
  cbn [fst] in H1, H2. subst r1 r2.
  destruct r; [reflexivity|reflexivity|congruence].
Qed.

Lemma get_product_data_clamps_witness :
  fst (GoogleSheetsRows.get_product_data 0 SheetSamples.sheet)
  = fst (GoogleSheetsRows.get_product_data 2 SheetSamples.sheet).
Proof.
  exact (get_product_data_clamps 0 SheetSamples.sheet eq_refl).
Defined.


Lemma get_product_data_via_read_row (row : Z) (w : sheet_world) (pd : dict) :
  fst (get_product_data row w) = Ok (Some pd) ->
  exists success values rows headers w1,
    py_get (tool_output w) (u "success") JNull = Ok success /\
    truthy success = true /\
    py_get (tool_output w) (u "values") (JList []) = Ok values /\
    py_len values = Ok rows /\ 2 <= rows /\ row <= rows /\
    fst (read_row values headers (Z.max row 2) w1) = Ok (Some pd).
Proof.
  unfold get_product_data, try_except, bind, _call_sheets_tool, lift, ret,
    sheet_logger.
  destruct w as [t lg]; cbn [tool_output sheet_log].
  destruct (truthy t); cbn [negb]; [|discriminate].
  destruct (py_get t (u "success") JNull) as [success|e|] eqn:E1;
    [|discriminate|discriminate].
  destruct (truthy success) eqn:Ts; cbn [negb]; [|discriminate].
  destruct (py_get t (u "values") (JList [])) as [values|e|] eqn:E2;
    [|discriminate|discriminate].
  destruct (py_len values) as [rows|e|] eqn:E3; [|discriminate|discriminate].
  destruct (rows <? 2) eqn:R; [discriminate|].
  apply Z.ltb_ge in R.
  destruct (py_index_int values 0) as [headers|e|] eqn:E4;
    [|discriminate|discriminate].
  destruct (row >? rows) eqn:G; [discriminate|].
  rewrite Z.gtb_ltb in G. apply Z.ltb_ge in G.
  destruct (row <? 2) eqn:L.
  - apply Z.ltb_lt in L. replace (Z.max row 2) with 2 by lia.
    match goal with |- context [read_row values headers 2 ?w1] =>
      destruct (read_row values headers 2 w1) as [r1 w1'] eqn:ER;
      intros H; exists success, values, rows, headers, w1
    end.
    rewrite ER. cbn [fst]. repeat split; auto.
    destruct r1; cbn in H; congruence.
  - apply Z.ltb_ge in L. replace (Z.max row 2) with row by lia.
    match goal with |- context [read_row values headers row ?w1] =>
      destruct (read_row values headers row w1) as [r1 w1'] eqn:ER;
      intros H; exists success, values, rows, headers, w1
    end.
    rewrite ER. cbn [fst]. repeat split; auto.
    destruct r1; cbn in H; congruence.
Qed.

(** X10. [get_product_data] never raises and does not change what the
    sheets tool returned.  It returns a record only when the tool's answer
    is an object with a true [success], its [values] have at least 2 rows,
    and [row] is not beyond the last row. *)
Theorem get_product_data_never_raises (row : Z) (w : sheet_world) :
  exists r,
    fst (get_product_data row w) = Ok r /\
    tool_output (snd (get_product_data row w)) = tool_output w /\
    (r <> None ->
     exists success values rows,
       py_get (tool_output w) (u "success") JNull = Ok success /\
       truthy success = true /\
       py_get (tool_output w) (u "values") (JList []) = Ok values /\
       py_len values = Ok rows /\ 2 <= rows /\ row <= rows).
Proof.
  assert (T : exists r, fst (get_product_data row w) = Ok r /\
                tool_output (snd (get_product_data row w)) = tool_output w).
  { unfold get_product_data, try_except, bind, _call_sheets_tool, lift, ret,
      sheet_logger.
    destruct w as [t lg]; cbn [tool_output sheet_log].
    destruct (truthy t); cbn [negb]; [|eexists; split; reflexivity].
    destruct (py_get t (u "success") JNull) as [success|e|] eqn:E1;
      [|eexists; split; reflexivity|now apply py_get_not_diverge in E1].
    destruct (truthy success); cbn [negb]; [|eexists; split; reflexivity].
    destruct (py_get t (u "values") (JList [])) as [values|e|] eqn:E2;
      [|eexists; split; reflexivity|now apply py_get_not_diverge in E2].
    destruct (py_len values) as [rows|e|] eqn:E3;
      [|eexists; split; reflexivity|now apply py_len_not_diverge in E3].
    destruct (rows <? 2); [eexists; split; reflexivity|].
    destruct (py_index_int values 0) as [headers|e|] eqn:E4;
      [|eexists; split; reflexivity|now apply py_index_int_not_diverge in E4].
    destruct (row >? rows); [eexists; split; reflexivity|].
    destruct (row <? 2); cbn [tool_output sheet_log].
    - destruct (read_row_pure values headers 2) as (r & Hr & HR).
      match goal with |- context [read_row values headers 2 ?w1] =>
        destruct (HR w1) as [H1 H2];
        destruct (read_row values headers 2 w1) as [r1 w1']
      end.
      cbn [fst snd] in H1, H2. subst r1.
      destruct r as [x|e|]; [| |congruence]; eexists; split;
        try reflexivity; cbn [snd tool_output]; exact H2.
    - destruct (read_row_pure values headers row) as (r & Hr & HR).
      match goal with |- context [read_row values headers row ?w1] =>
        destruct (HR w1) as [H1 H2];
        destruct (read_row values headers row w1) as [r1 w1']
      end.
      cbn [fst snd] in H1, H2. subst r1.
      destruct r as [x|e|]; [| |congruence]; eexists; split;
        try reflexivity; cbn [snd tool_output]; exact H2. }
  destruct T as (r & T1 & T2). exists r. repeat split; auto.
  intros Hr. destruct r as [pd|]; [|congruence].
  destruct (get_product_data_via_read_row row w pd T1)
    as (s0 & values & rows & headers & w1 & A & B & C & D & E & F & _).
  exists s0, values, rows. repeat split; auto.
Qed.






Lemma lower_no_capital (s : str) (c : N) :
  In c (lower s) -> ~ (65 <= c <= 90)%N.
Proof.
  unfold lower. intros H. apply in_flat_map in H.
  destruct H as (x & _ & H).
  unfold lower_cp in H.
  destruct ((65 <=? x) && (x <=? 90))%N eqn:A.
  - apply andb_true_iff in A as [A1 A2]. apply N.leb_le in A1, A2.
    destruct H as [<-|[]]. lia.
  - destruct (N.eqb_spec x 304) as [->|B].
    + destruct H as [<-|[<-|[]]]; lia.
    + destruct (N.eqb_spec x 8490) as [->|C].
      * destruct H as [<-|[]]; lia.
      * destruct H as [<-|[]]. intros [H1 H2].
        apply andb_false_iff in A as [A|A]; apply N.leb_gt in A; lia.
Qed.

Lemma field_key_normalised (header : json) (key : str) :
  field_key header = Ok key -> normalised key.
Proof.
  destruct header as [| | |s| |]; try discriminate.
  cbn. intros [= <-] c Hc. unfold replace_char in Hc.
  apply in_map_iff in Hc. destruct Hc as (x & Hx & Hi).
  destruct (N.eqb_spec x 32) as [Hy|Hn].
  - subst c. split; lia.
  - subst c. split; [exact Hn|]. now apply lower_no_capital in Hi.
Qed.

Lemma dict_set_keys (k k' : str) (v : json) (d : dict) :
  In k (map fst (dict_set k' v d)) -> k = k' \/ In k (map fst d).
Proof.
  induction d as [|[k0 v0] d IH]; cbn [dict_set map fst In].
  - intros [H|[]]; auto.
  - destruct (str_eqb k' k0) eqn:E; cbn [map fst In].
    + intros [H|H]; auto.
    + intros [H|H]; auto. destruct (IH H); auto.
Qed.

Lemma fill_fields_keys (headers : list json) (data_row : json) :
  forall i base w pd w',
    fill_fields i headers data_row base w = (Ok pd, w') ->
    (forall k, In k (map fst base) -> normalised k) ->
    forall k, In k (map fst pd) -> normalised k.
Proof.
  induction headers as [|h rest IH]; intros i base w pd w' H Hb;
    cbn [fill_fields] in H.
  - injection H as <- _. exact Hb.
  - unfold bind, lift in H.
    destruct (py_len data_row) as [n|e|]; try discriminate.
    destruct (Z.of_nat i <? n).
    + destruct (py_index_int data_row i) as [cell|e|]; try discriminate.
      destruct (field_key h) as [key|e|] eqn:Ek; try discriminate.
      apply (IH _ _ _ _ _ H). intros k Hk.
      apply dict_set_keys in Hk as [->|Hk]; auto.
      now apply field_key_normalised in Ek.
    + destruct (field_key h) as [key|e|] eqn:Ek; try discriminate.
      apply (IH _ _ _ _ _ H). intros k Hk.
      apply dict_set_keys in Hk as [->|Hk]; auto.
      now apply field_key_normalised in Ek.
Qed.

Lemma literal_key_normalised (k : str) :
  forallb (fun c => negb (c =? 32)%N
                    && negb ((65 <=? c) && (c <=? 90))%N) k = true ->
  normalised k.
Proof.
  intros H c Hc. rewrite forallb_forall in H. specialize (H c Hc).
  apply andb_true_iff in H as [H1 H2].
  apply negb_true_iff in H1, H2. apply N.eqb_neq in H1.
  split; [exact H1|]. intros [A B].
  apply andb_false_iff in H2 as [H2|H2]; apply N.leb_gt in H2; lia.
Qed.

(** X13. Every field name of a record returned by [get_product_data] is
    normalised: it has no blank and no Basic Latin capital. *)
Theorem get_product_data_keys_normalised (row : Z) (w : sheet_world)
        (pd : dict) :
  fst (get_product_data row w) = Ok (Some pd) ->
  forall k, In k (map fst pd) -> normalised k.
Proof.
  intros H.
  destruct (get_product_data_via_read_row row w pd H)
    as (s0 & values & rows & headers & w1 & _ & _ & _ & _ & _ & _ & F).
  revert F. unfold read_row, bind, lift, ret, sheet_logger.
  destruct (py_index_int values _) as [data_row|e|];
    [|discriminate|discriminate].
  destruct (truthy data_row); cbn [negb]; [|discriminate].
  destruct (py_iter headers) as [items|e|]; [|discriminate|discriminate].
  destruct (fill_fields 0 items data_row [] w1) as [[base|e|] w2] eqn:EF;
    [|discriminate|discriminate].
  pose proof (fill_fields_keys _ _ _ _ _ _ _ EF
                (fun k (Hk : In k (map fst [])) => match Hk with end)) as KB.
  destruct (on_title _ _) as [b|e|]; [|discriminate|discriminate].
  destruct (on_title _ _) as [k0|e|]; [|discriminate|discriminate].
  destruct (on_title _ _) as [n|e|]; [|discriminate|discriminate].
  cbn [fst]. intros [= <-] k Hk.
  repeat (apply dict_set_keys in Hk as [->|Hk];
          [apply literal_key_normalised; reflexivity|]).
  now apply KB.
Qed.

Lemma get_product_data_keys_normalised_witness :
  (112 <> 32 /\ ~ (65 <= 112 <= 90))%N.
Proof.
  apply (get_product_data_keys_normalised 2 SheetSamples.sheet
           SheetSamples.row_2)
    with (k := u "parent_asin").
  - vm_compute. reflexivity.
  - vm_compute. left. reflexivity.
  - vm_compute. left. reflexivity.
Defined.

End SheetRows.

(** * Notifier, API key, and what the script quotes *)

Section Notifier.
Import ZapierWebhookSender.

(** X24. [send_to_zapier] never raises.  With an empty or placeholder
    URL it returns [False] and sends nothing; otherwise it posts the
    payload once.  It returns [True] exactly when the URL is configured and
    the reply has status 200. *)
Theorem send_to_zapier_outcome (webhook_url : str) (data : json) (w : world) :
  exists b,
    fst (send_to_zapier webhook_url data w) = Ok b /\
    (configured webhook_url = false ->
     b = false /\ sent (snd (send_to_zapier webhook_url data w)) = sent w) /\
    (configured webhook_url = true ->
     sent (snd (send_to_zapier webhook_url data w)) =
       sent w ++ [(webhook_url, data)]) /\
    (b = true <->
     configured webhook_url = true /\
     exists l r rest, net w = Reply l r :: rest /\ status_code r = 200).
Proof.
  unfold send_to_zapier, try_except, bind, http_post, logger, ret, configured.
  destruct webhook_url as [|c url].
  { exists false. cbn. repeat split; try discriminate.
    - intros [H _]; discriminate. }
  cbn [truthy negb orb andb].
  destruct (contains (u "YOUR_WEBHOOK_ID") (c :: url)); cbn [negb].
  { exists false. cbn. repeat split; try discriminate.
    intros [H _]; discriminate. }
  destruct w as [nt st lg]; cbn [net sent log].
  destruct nt as [|[l|l r] rest]; cbn [net sent log fst snd].
  1,2: (exists false; repeat split; try discriminate;
        intros (_ & l' & r' & rest' & H & _); discriminate).
  destruct (status_code r =? 200) eqn:S; cbn [fst snd sent].
  - exists true. repeat split; try discriminate.
    exists l, r, rest. apply Z.eqb_eq in S. auto.
  - exists false. repeat split; try discriminate.
    intros (_ & l' & r' & rest' & H & H'). injection H as _ <- _.
    apply Z.eqb_neq in S. congruence.
Qed.

End Notifier.

Section ApiKey.
Import SocialPilotPoster StateManager.

(** X23. [_get_api_key] never raises: it returns the value under
    SOCIALPILOT / secrets / API_KEY of the secrets file, and [None] when
    the file is absent, unreadable, not JSON, or lacks one of the three
    levels. *)
Theorem get_api_key_never_raises (f : file_state) :
  _get_api_key f =
  (Ok (match f with
       | Parsed (JDict d) =>
           match lookup (u "SOCIALPILOT") d with
           | Some (JDict d1) =>
               match lookup (u "secrets") d1 with
               | Some (JDict d2) =>
                   match lookup (u "API_KEY") d2 with
                   | Some key => key
                   | None => JNull
                   end
               | _ => JNull
               end
           | _ => JNull
           end
       | _ => JNull
       end), f).
Proof.
  unfold _get_api_key, try_except, bind, load_secrets, lift, ret, py_getitem.
  destruct f as [| | |[| | | | |d]]; try reflexivity.
  destruct (lookup (u "SOCIALPILOT") d) as [[| | | | |d1]|]; try reflexivity.
  destruct (lookup (u "secrets") d1) as [[| | | | |d2]|]; try reflexivity.
  destruct (lookup (u "API_KEY") d2); reflexivity.
Qed.

End ApiKey.

Section ScriptMore.
Import ScriptGenerator.

Lemma starts_with_app (x b : str) : starts_with x (x ++ b) = true.
Proof.
  induction x as [|c x IH]; [reflexivity|].
  cbn. now rewrite N.eqb_refl, IH.
Qed.

Lemma contains_here (x b : str) : contains x (x ++ b) = true.
Proof.
  destruct x as [|c x]; [destruct b; reflexivity|].
  cbn [app contains]. change (c :: x ++ b) with ((c :: x) ++ b).
  now rewrite starts_with_app.
Qed.

Lemma contains_skip (a x b : str) :
  contains x b = true -> contains x (a ++ b) = true.
Proof.
  intros H. induction a as [|c a IH]; [exact H|].
  cbn [app contains]. rewrite IH. apply orb_true_r.
Qed.

(** X14. The education text of a generated script quotes the record's
    product name, key ingredient and benefits (or their defaults), and the
    full script contains the education text and the call to action. *)
Theorem script_mentions_fields (product_data : record) (lg : list event) :
  exists s,
    fst (generate_script product_data lg) = Ok (Script s) /\
    contains (get (u "product_name") product_data (u "our organic product"))
             (education s) = true /\
    contains (get (u "key_ingredient") product_data (u "natural ingredients"))
             (education s) = true /\
    contains (get (u "benefits") product_data
                  (u "amazing benefits for your plants"))
             (education s) = true /\
    contains (education s) (full_script s) = true /\
    contains (cta s) (full_script s) = true.
Proof.
  cbv [generate_script try_except bind lift ret logger py_index nth_error
       hooks education_templates map].
  match goal with
  | |- exists s, fst (Ok (Script ?x), _) = _ /\ _ => exists x
  end.
  split; [reflexivity|].
  cbn [education full_script hook cta].
  set (n := get (u "product_name") _ _).
  set (k := get (u "key_ingredient") _ _).
  set (b := get (u "benefits") _ _).
  repeat split.
  - apply contains_here.
  - do 2 apply contains_skip. apply contains_here.
  - do 4 apply contains_skip. apply contains_here.
  - do 2 apply contains_skip.
    match goal with |- contains ?x _ = true => apply (contains_here x) end.
  - do 4 apply contains_skip.
    rewrite <- (app_nil_r cta_text) at 2. apply contains_here.
Qed.

End ScriptMore.

(** * Requests of the video producer *)

Section VideoRequests.
Import ScriptGenerator PictoryVideoCreator.

Lemma get_access_token_cases (c : creator) (w : world) :
  exists b w',
    _get_access_token c w = (Ok b, w') /\
    sent w' = sent w ++ [PostToken (client_id c) (client_secret c)] /\
    (b = false -> access_token w' = access_token w) /\
    (b = true ->
     exists l r rest d,
       net w = Reply l r :: rest /\ status_code r = 200 /\
       body r = Some (JDict d) /\
       access_token w' = match lookup (u "access_token") d with
                         | Some t => t
                         | None => JNull
                         end).
Proof.
  unfold _get_access_token, try_except, bind, http, lift, logger, ret,
    set_access_token, response_json.
  destruct w as [ck nt st tk lg]; cbn [net clock sent access_token log].
  destruct nt as [|[l|l r] rest]; cbn [net clock sent access_token log];
    try (do 2 eexists; split; [reflexivity|]; cbn;
         repeat split; congruence).
  destruct (status_code r =? 200) eqn:S;
    try (do 2 eexists; split; [reflexivity|]; cbn;
         repeat split; congruence).
  apply Z.eqb_eq in S.
  destruct (body r) as [j|] eqn:B;
    try (do 2 eexists; split; [reflexivity|]; cbn;
         repeat split; congruence).
  destruct j as [| | | | |d];
    try (do 2 eexists; split; [reflexivity|]; cbn;
         repeat split; congruence).
  do 2 eexists. split; [reflexivity|]. cbn.
  repeat split; try congruence.
  intros _. exists l, r, rest, d. repeat split; auto.
Qed.

Lemma poll_once_sends (id : json) (w : world) :
  sent (snd (poll_once id w)) = sent w ++ [GetJob (access_token w) id].
Proof.
  unfold poll_once, try_except, bind, get_access_token_field, http, lift,
    logger, time_sleep, ret, response_json.
  destruct w as [ck nt st tk lg]; cbn [net clock sent access_token log].
  destruct nt as [|[l|l r] rest]; cbn [net clock sent access_token log];
    try reflexivity.
  destruct (status_code r =? 200); [|reflexivity].
  destruct (body r) as [j|]; [|reflexivity].
  destruct (py_get j (u "data") (JDict [])) as [data|e|];
    [|reflexivity|reflexivity].
  destruct (py_get data (u "status") JNull) as [status|e|];
    [|reflexivity|reflexivity].
  destruct (is_str status (u "completed")).
  - destruct (py_get data (u "videoURL") JNull); reflexivity.
  - destruct (is_str status (u "failed")); reflexivity.
Qed.

Lemma wait_loop_polls (budget : nat) (id : json) (start mw : Z) :
  forall w,
    exists polls,
      sent (snd (wait_loop budget id start mw w)) = sent w ++ polls /\
      polls_within polls (mw - (clock w - start)) /\
      Forall (eq (GetJob (access_token w) id)) polls.
Proof.
  induction budget as [|b IH]; intros w.
  - exists []. cbn. rewrite app_nil_r. repeat split; [now left|constructor].
  - cbn [wait_loop]. unfold bind at 1. unfold time_time at 1.
    destruct (clock w - start <? mw) eqn:G.
    + apply Z.ltb_lt in G. unfold bind at 1.
      destruct (poll_once_cases id w) as (r & w1 & E & Ht & Hc & Hr).
      pose proof (poll_once_sends id w) as Hs. rewrite E in *. cbn [snd] in Hs.
      destruct r as [v|].
      * exists [GetJob (access_token w) id]. unfold ret. cbn [snd].
        repeat split; [exact Hs| |repeat constructor].
        right. cbn [List.length Z.of_nat]. lia.
      * destruct (IH w1) as (polls & P1 & P2 & P3).
        exists (GetJob (access_token w) id :: polls).
        rewrite P1, Hs, <- app_assoc. repeat split.
        -- right. cbn [List.length]. rewrite Nat2Z.inj_succ.
           cbn beta iota in Hr.
           destruct P2 as [->|P2]; cbn [List.length Z.of_nat] in *; lia.
        -- constructor; [reflexivity|]. now rewrite <- Ht.
    + exists []. unfold bind, logger, ret. cbn. rewrite app_nil_r.
      repeat split; [now left|constructor].
Qed.

Lemma wait_polls (id : json) (mw : Z) (w : world) :
  exists polls,
    sent (snd (_wait_for_video_completion id mw w)) = sent w ++ polls /\
    Forall (eq (GetJob (access_token w) id)) polls /\
    (polls = [] \/ 30 * (Z.of_nat (List.length polls) - 1) < mw).
Proof.
  unfold _wait_for_video_completion, bind at 1, time_time at 1.
  destruct (wait_loop_polls (poll_budget mw) id (clock w) mw w)
    as (polls & P1 & P2 & P3).
  exists polls. repeat split; auto.
  unfold polls_within in P2. replace (mw - (clock w - clock w)) with mw in P2
    by lia. exact P2.
Qed.

(** X16. Waiting for a video sends at most 20 status requests, all for
    the given job with the token held, whatever the service answers. *)
Theorem wait_polls_are_bounded (id : json) (w : world) :
  exists polls,
    sent (snd (_wait_for_video_completion id 600 w)) = sent w ++ polls /\
    Forall (eq (GetJob (access_token w) id)) polls /\
    (List.length polls <= 20)%nat.
Proof.
  destruct (wait_polls id 600 w) as (polls & P1 & P2 & P3).
  exists polls. repeat split; auto. destruct P3 as [->|P3]; cbn; lia.
Qed.

(** X15. [_get_access_token] never raises and sends exactly one token
    request.  It returns [True] only for a status 200 reply whose body is
    a JSON object, and then stores that object's [access_token] ([None]
    when there is none); when it returns [False] the token is left as it
    was. *)
Theorem get_access_token_outcome (c : creator) (w : world) :
  exists b,
    fst (_get_access_token c w) = Ok b /\
    sent (snd (_get_access_token c w)) =
      sent w ++ [PostToken (client_id c) (client_secret c)] /\
    (b = false ->
     access_token (snd (_get_access_token c w)) = access_token w) /\
    (b = true ->
     exists l r rest d,
       net w = Reply l r :: rest /\ status_code r = 200 /\
       body r = Some (JDict d) /\
       access_token (snd (_get_access_token c w)) =
         match lookup (u "access_token") d with
         | Some t => t
         | None => JNull
         end).
Proof.
  destruct (get_access_token_cases c w) as (b & w' & E & H).
  exists b. rewrite E. cbn [fst snd]. split; [reflexivity|exact H].
Qed.

Lemma create_video_requests (c : creator) (script : script_doc)
      (pd : record) (w : world) :
  test_mode c = false ->
  starts_with (u "AQICA") (api_key c) = false ->
  truthy (access_token w) = true ->
  exists polls,
    sent (snd (create_video c script pd w)) =
      sent w ++
      PostCreate (access_token w) (get (u "product_name") pd (u "Product"))
                 (map to_pictory_scene (scenes_of script)) :: polls /\
    (List.length polls <= 20)%nat /\
    Forall (fun rq => exists id, rq = GetJob (access_token w) id) polls.
Proof.
  intros Ht Hk Ha. unfold create_video, try_except. rewrite Ht, Hk.
  unfold have_token.
  unfold bind, get_access_token_field, lift, response_json, py_get, ret.
  rewrite Ha. cbn [negb].
  unfold http, logger.
  destruct w as [ck nt st tk lg]; cbn [net clock sent access_token log] in *.
  destruct nt as [|[l|l r] rest]; cbn [net clock sent access_token log snd];
    try (exists []; repeat split; [cbn; lia|constructor]).
  destruct ((status_code r =? 200) || (status_code r =? 201));
    [|exists []; repeat split; [cbn; lia|constructor]].
  destruct (body r) as [j|];
    [|exists []; repeat split; [cbn; lia|constructor]].
  destruct j as [| | | | |d];
    try (exists []; repeat split; [cbn; lia|constructor]).
  destruct (lookup (u "job") d) as [job|].
  - destruct job as [| | | | |jd];
      try (exists []; repeat split; [cbn; lia|constructor]).
    destruct (lookup (u "id") jd) as [id|];
      [|exists []; repeat split; [cbn; lia|constructor]].
    destruct (truthy id);
      [|exists []; repeat split; [cbn; lia|constructor]].
    match goal with |- context [_wait_for_video_completion id 600 ?w3] =>
      destruct (wait_polls id 600 w3) as (polls & P1 & P2 & P3);
      destruct (wait_for_video_completion_cases id 600 w3)
        as (url & w4 & E4 & _)
    end.
    rewrite E4 in *. cbn [snd sent access_token] in *.
    exists polls. rewrite P1, <- app_assoc. repeat split.
    + destruct P3 as [->|P3]; cbn; lia.
    + eapply Forall_impl; [|exact P2]. intros rq <-. eexists; reflexivity.
  - exists []; repeat split; [cbn; lia|constructor].
Qed.


(** X17. With a token already held, live [create_video] asks for no new
    token: the first request it sends is the job submission with that
    token, followed by at most 20 status requests. *)
Theorem create_video_reuses_token (c : creator) (script : script_doc)
        (pd : record) (w : world) :
  test_mode c = false ->
  starts_with (u "AQICA") (api_key c) = false ->
  truthy (access_token w) = true ->
  exists polls,
    sent (snd (create_video c script pd w)) =
      sent w ++
      PostCreate (access_token w) (get (u "product_name") pd (u "Product"))
                 (map to_pictory_scene (scenes_of script)) :: polls /\
    (List.length polls <= 20)%nat /\
    Forall (fun rq => exists id, rq = GetJob (access_token w) id) polls.
Proof. apply create_video_requests. Qed.

Lemma create_video_reuses_token_witness :
  sent (snd (create_video VideoSamples.live VideoSamples.no_script
               VideoSamples.no_fields VideoSamples.job_fails)) =
  [PostCreate (JStr (u "tok")) (u "Product") [];
   GetJob (JStr (u "tok")) (JStr (u "job-1"))].
Proof.
  destruct (create_video_reuses_token VideoSamples.live
              VideoSamples.no_script VideoSamples.no_fields
              VideoSamples.job_fails eq_refl eq_refl eq_refl)
    as (polls & H & _).
  reflexivity.
Defined.

(** X18. The script made by [generate_script] is submitted as it is:
    the job carries three scenes with the script's hook, education and
    call-to-action texts, durations 7, 18 and 5, voice-over on, and the
    three background music tags. *)
Theorem generated_script_is_submitted (c : creator) (pd : record)
        (lg : list ScriptGenerator.event) (w : world) :
  test_mode c = false ->
  starts_with (u "AQICA") (api_key c) = false ->
  truthy (access_token w) = true ->
  exists s scenes polls,
    fst (generate_script pd lg) = Ok (Script s) /\
    sent (snd (create_video c (Script s) pd w)) =
      sent w ++
      PostCreate (access_token w) (get (u "product_name") pd (u "Product"))
                 scenes :: polls /\
    map ps_duration scenes = [7; 18; 5] /\
    map ps_text scenes = [hook s; education s; cta s] /\
    map voiceOver scenes = [true; true; true] /\
    map backgroundMusic scenes =
      [u "upbeat_gardening"; u "educational_calm"; u "upbeat_conclusion"].
Proof.
  intros Ht Hk Ha.
  destruct (generate_script pd lg) as [r lg'] eqn:G.
  revert G.
  cbv [generate_script try_except bind lift ret ScriptGenerator.logger
       py_index nth_error hooks education_templates map].
  intros [= <- _].
  match goal with |- context [Script ?x] => set (s := x) end.
  destruct (create_video_requests c (Script s) pd w Ht Hk Ha)
    as (polls & H & _).
  exists s, (map to_pictory_scene (scenes s)), polls.
  split; [reflexivity|]. split; [exact H|]. repeat split.
Qed.

Lemma generated_script_is_submitted_witness :
  exists s scenes polls,
    fst (generate_script VideoSamples.no_fields []) = Ok (Script s) /\
    sent (snd (create_video VideoSamples.live (Script s)
                 VideoSamples.no_fields VideoSamples.job_fails)) =
      PostCreate (JStr (u "tok")) (u "Product") scenes :: polls /\
    map ps_duration scenes = [7; 18; 5].
Proof.
  destruct (generated_script_is_submitted VideoSamples.live
              VideoSamples.no_fields [] VideoSamples.job_fails
              eq_refl eq_refl eq_refl)
    as (s & scenes & polls & H1 & H2 & H3 & _).
  exists s, scenes, polls. repeat split; assumption.
Defined.

End VideoRequests.

(** * Requests of the publisher *)

Section PublisherMore.
Import ScriptGenerator SocialPilotPoster.

Lemma try_methods_order (ms : list auth_method) :
  forall w, exists accs w1 tried rest,
    try_methods ms w = (Ok accs, w1) /\
    sent w1 = sent w ++ map GetAccounts tried /\
    ms = tried ++ rest /\
    (truthy accs = true ->
     exists init m, tried = init ++ [m] /\ headers w1 = Some m) /\
    (rest <> [] -> tried <> []).
Proof.
  induction ms as [|m ms IH]; intros w; cbn [try_methods].
  - exists (JList []), w, [], []. unfold ret. cbn.
    rewrite app_nil_r. repeat split; try discriminate. congruence.
  - unfold bind.
    destruct (try_method_cases m w) as (r & w' & E & Hs & _ & _ & Hh).
    rewrite E. destruct r as [v|].
    + exists v, w', [m], ms. unfold ret. repeat split; auto.
      * intros _. exists [], m. split; [reflexivity|].
        apply Hh. discriminate.
      * discriminate.
    + destruct (IH w') as (accs & w1 & tried & rest & E1 & Hs1 & Hm & Hh1 & _).
      exists accs, w1, (m :: tried), rest. rewrite E1. repeat split; auto.
      * rewrite Hs1, Hs, <- app_assoc. reflexivity.
      * cbn. congruence.
      * intros T. destruct (Hh1 T) as (init & m' & -> & H).
        exists (m :: init), m'. split; [reflexivity|exact H].
      * discriminate.
Qed.

(** X19. [get_accounts] never raises; it sends one to three account
    queries, in the order Bearer, API-Key, X-API-Key, and when it returns
    a non-empty value [self.headers] is the method of the last query
    sent. *)
Theorem get_accounts_tries_in_order (w : world) :
  exists accs tried rest,
    fst (get_accounts w) = Ok accs /\
    sent (snd (get_accounts w)) = sent w ++ map GetAccounts tried /\
    [Bearer; API_Key; X_API_Key] = tried ++ rest /\
    tried <> [] /\
    (truthy accs = true ->
     exists init m, tried = init ++ [m] /\
                    headers (snd (get_accounts w)) = Some m).
Proof.
  unfold get_accounts.
  destruct (try_methods_order [Bearer; API_Key; X_API_Key] w)
    as (accs & w1 & tried & rest & E & Hs & Hm & Hh & Hne).
  exists accs, tried, rest. rewrite E. cbn [fst snd].
  repeat split; auto.
  destruct rest as [|x rest]; [|apply Hne; discriminate].
  rewrite app_nil_r in Hm. subst tried. discriminate.
Qed.

(** X20. [upload_media] never raises.  When the video file cannot be
    opened it returns [None] and sends nothing; otherwise it sends exactly
    one upload request, and it returns a non-empty media id only on a
    status 200 reply. *)
Theorem upload_media_outcome (vp : str) (w : world) :
  (exists mid, fst (upload_media vp w) = Ok mid) /\
  (existsb (str_eqb vp) (readable w) = false ->
   upload_media vp w = (Ok JNull, w)) /\
  (existsb (str_eqb vp) (readable w) = true ->
   sent (snd (upload_media vp w)) = sent w ++ [PostMedia vp]) /\
  (forall mid, fst (upload_media vp w) = Ok mid -> truthy mid = true ->
     exists l r rest, net w = Reply l r :: rest /\ status_code r = 200).
Proof.
  split; [|split; [|split]].
  - destruct (upload_media_cases vp w) as (mid & w2 & E & _).
    exists mid. now rewrite E.
  - intros H. unfold upload_media, try_except, bind, open_rb.
    rewrite H. reflexivity.
  - intros H.
    unfold upload_media, try_except, bind, open_rb, http, lift, ret,
      response_json.
    rewrite H.
    destruct w as [nt st hd rd ts]; cbn [net sent headers readable now_iso].
    destruct nt as [|[l|l r] rest]; try reflexivity.
    destruct (status_code r =? 200); [|reflexivity].
    destruct (body r) as [j|]; [|reflexivity].
    destruct (py_get_cases j (u "data") (JDict [])) as [[data ->]| ->];
      [|reflexivity].
    destruct (py_get_cases data (u "id") JNull) as [[id ->]| ->];
      reflexivity.
  - intros mid.
    unfold upload_media, try_except, bind, open_rb, http, lift, ret,
      response_json.
    destruct (existsb (str_eqb vp) (readable w));
      [|cbn; intros [= <-]; discriminate].
    destruct w as [nt st hd rd ts]; cbn [net sent headers readable now_iso].
    destruct nt as [|[l|l r] rest];
      try (cbn; intros [= <-]; discriminate).
    destruct (status_code r =? 200) eqn:S;
      [|cbn; intros [= <-]; discriminate].
    intros _ _. exists l, r, rest. apply Z.eqb_eq in S. auto.
Qed.

(** X21. [create_post] never raises.  Without [self.headers] it returns
    an error dict and sends nothing; otherwise it sends one post request,
    with the media attached when the media id is non-empty.  Its result is
    an error dict unless the reply has status 200, in which case it is the
    reply's JSON body. *)
Theorem create_post_outcome (ids : list json) (text : str) (mid : json)
        (w : world) :
  exists pr,
    fst (create_post ids text mid w) = Ok pr /\
    (headers w = None ->
     exists msg, create_post ids text mid w = (Ok (error_dict msg), w)) /\
    (forall h, headers w = Some h ->
       sent (snd (create_post ids text mid w)) =
         sent w ++
         [PostPosts h ids text (if truthy mid then Some [mid] else None)]) /\
    ((exists msg, pr = error_dict msg) \/
     (exists l r rest, net w = Reply l r :: rest /\ status_code r = 200 /\
                       body r = Some pr)).
Proof.
  destruct (create_post_cases ids text mid w) as (pr & w3 & E & _ & Hs & Hr).
  exists pr. split; [now rewrite E|]. split; [|split].
  - intros Hn. unfold create_post, try_except, bind, get_headers.
    rewrite Hn. eexists. reflexivity.
  - intros h Hh. rewrite E. cbn [snd]. now apply Hs.
  - exact Hr.
Qed.

(** X22. [post_video] does not catch exceptions of its own steps: when
    one of the first three discovered accounts cannot give an id (a
    [KeyError] for an account without "id"), the exception leaves
    [post_video] after the media was uploaded and before any post is
    created. *)
Theorem post_video_propagates_bad_account (vp : str) (script : script_doc)
        (pd : record) (w w1 w2 : world) (accs : list json) (mid : json)
        (e : exn) :
  get_accounts w = (Ok (JList accs), w1) ->
  accs <> [] ->
  upload_media vp w1 = (Ok mid, w2) ->
  truthy mid = true ->
  map_result (fun acc => py_getitem acc (u "id")) (firstn 3 accs) = Raise e ->
  post_video vp script pd w = (Raise e, w2).
Proof.
  intros H1 Hne H2 Hm He.
  unfold post_video. unfold bind at 1. rewrite H1.
  replace (truthy (JList accs)) with true
    by (destruct accs; [congruence|reflexivity]).
  cbn [negb]. unfold bind at 1, lift at 1. cbn [py_len].
  unfold bind at 1. rewrite H2, Hm. cbn [negb].
  unfold bind at 1, lift at 1, account_ids_of. cbn [py_slice3 py_iter].
  rewrite He. reflexivity.
Qed.

Lemma post_video_propagates_bad_account_witness :
  fst (post_video PosterSamples.video_path EmptyDict []
         PosterSamplesMore.account_without_id) = Raise KeyError /\
  sent (snd (post_video PosterSamples.video_path EmptyDict []
               PosterSamplesMore.account_without_id))
  = [GetAccounts Bearer; PostMedia PosterSamples.video_path].
Proof.
  rewrite (post_video_propagates_bad_account
             PosterSamples.video_path EmptyDict []
             PosterSamplesMore.account_without_id
             (snd (get_accounts PosterSamplesMore.account_without_id))
             (snd (upload_media PosterSamples.video_path
                     (snd (get_accounts
                             PosterSamplesMore.account_without_id))))
             [PosterSamples.account_item "a1";
              JDict [(u "type", JStr (u "Instagram"))]]
             (JStr (u "m1")) KeyError
             eq_refl ltac:(discriminate) eq_refl eq_refl eq_refl).
  split; reflexivity.
Defined.

End PublisherMore.
